(** * discord-authorize: the authenticated request executor and its call sites

    A shallow embedding of [src/auth/authenticator.ts] (class
    [DiscordAuthorization]): the private [request] wrapper with its
    status-to-error mapping, [generateOauth2Link], [exchangeCodeForTokens],
    [revokeToken] and [getApplication].

    JavaScript values are an inductive type; property reads, optional
    chaining, truthiness and template-literal conversion follow the language
    semantics, so that an expression such as [error?.response.status] is
    evaluated link by link.  Methods run in a small monad that threads the
    instance fields and the log of outbound HTTP calls, and that can throw. *)

From Stdlib Require Import ZArith Lia Ascii String List.
From stdpp Require Import base option strings pretty gmap.

Local Open Scope string_scope.
Local Open Scope Z_scope.

(** ** JavaScript values *)

(** Strings are byte strings: a well-formed JavaScript string is read as its
    UTF-8 encoding.  A number is written as the numeric literal that denotes
    it and stands for the double nearest to that literal: [JNum n] for a
    number with an integral value (a status code, a JSON integer), and
    [JDec s d], the decimal [s / 10^d], for one that has decimals (a JSON
    number such as 64.57 is [JDec 6457 2]).  An object lists its own
    properties in enumeration order. *)
#[warnings="-register-all"]
Inductive JSValue : Type :=
| JUndefined
| JNull
| JBool (b : bool)
| JNum (n : Z)
| JDec (significand : Z) (decimals : positive)
| JStr (s : string)
| JArr (items : list JSValue)
| JObj (fields : list (string * JSValue)).

(** Modelled from the spec: the six classes imported from [../errors]
    ([InvalidAccessTokenError], [NotFoundError], [BadRequestError],
    [RateLimitedError], [DiscordAPIError], [UnauthorizedError]) are not among
    the sources; they are the error kinds of the spec, one per status, whose
    instances carry a message and a context.  [Error] is the plain built-in
    class (the "unclassified" kind, also thrown for the precondition failure
    of [revokeToken]); [TypeError] is the built-in one, raised by the input
    checks and by the engine itself on a property read of [undefined] or
    [null]. *)
Inductive ErrorClass : Type :=
| Error
| TypeError
| InvalidAccessTokenError
| NotFoundError
| BadRequestError
| RateLimitedError
| DiscordAPIError
| UnauthorizedError.

(** What a [throw] (or a rejected promise) carries: an instance of one of
    the classes above, built as [new C(message)] or [new C(message, context)],
    or the value the transport rejected with. *)
Inductive Exception : Type :=
| ErrorInstance (cls : ErrorClass) (message : string) (context : option string)
| Rejection (error : JSValue).

Inductive Completion (A : Type) : Type :=
| Normal (a : A)
| Throw (e : Exception).
Arguments Normal {A} a.
Arguments Throw {A} e.

Definition cbind {A B} (c : Completion A) (k : A -> Completion B) : Completion B :=
  match c with
  | Normal a => k a
  | Throw e => Throw e
  end.

(** ** Numbers

    A JavaScript number is an IEEE 754 double.  The functions below round
    an exact rational to the nearest double and print a double the way
    Number::toString does, in exact integer arithmetic. *)
Module Number.

(** [a / b >= 2^p], for a magnitude [a / b] with [a >= 0] and [b > 0]. *)
Definition ge_pow2 (a b p : Z) : bool :=
  if 0 <=? p then b * 2 ^ p <=? a else b <=? a * 2 ^ (- p).

(** The binary exponent [p] of a positive [a / b]: [2^p <= a / b < 2^(p+1)]. *)
Definition floor_log2 (a b : Z) : Z :=
  let p := Z.log2 a - Z.log2 b in
  if ge_pow2 a b p then p else p - 1.

(** The integer nearest to [a / b], ties to even. *)
Definition round_half_even (a b : Z) : Z :=
  let q := a / b in
  let r := a mod b in
  if 2 * r <? b then q
  else if b <? 2 * r then q + 1
  else if Z.even q then q else q + 1.

(** The double nearest to the magnitude [a / b], as mantissa and binary
    exponent [(m, E)] with value [m * 2^E] and [m <= 2^53]: 53 bits of
    precision, gradual underflow below [2^-1022], ties to even. *)
Definition to_double (a b : Z) : Z * Z :=
  if a =? 0 then (0, 0)
  else
    let E := Z.max (floor_log2 a b) (-1022) - 52 in
    let m := if 0 <=? E then round_half_even a (b * 2 ^ E)
             else round_half_even (a * 2 ^ (- E)) b in
    (m, E).

(** The rounding underflowed to zero (or the number is zero). *)
Definition is_zero (d : Z * Z) : bool := fst d =? 0.

(** The rounding left the finite range: the value is an infinity. *)
Definition overflows (d : Z * Z) : bool :=
  negb (is_zero d) && (1024 <=? Z.log2 (fst d) + snd d).

(** Two mantissa and exponent pairs with the same value. *)
Definition same_double (x y : Z * Z) : bool :=
  let low := Z.min (snd x) (snd y) in
  fst x * 2 ^ (snd x - low) =? fst y * 2 ^ (snd y - low).

(** [a / b * 10^e]. *)
Definition scale10 (a b e : Z) : Z * Z :=
  if 0 <=? e then (a * 10 ^ e, b) else (a, b * 10 ^ (- e)).

(** The decimal [s * 10^e] denotes the double [d]. *)
Definition rounds_to (d : Z * Z) (s e : Z) : bool :=
  let '(a, b) := scale10 s 1 e in same_double (to_double a b) d.

(** The number of decimal digits of a positive integer. *)
Fixpoint count_digits (fuel : nat) (x : Z) : Z :=
  match fuel with
  | O => 0
  | S fuel' => if x <=? 0 then 0 else 1 + count_digits fuel' (x / 10)
  end.

Definition digits (x : Z) : Z := count_digits (S (Z.to_nat (Z.log2 x))) x.

(** The decimal position [n] of a positive [a / b]:
    [10^(n-1) <= a / b < 10^n]. *)
Definition position (a b : Z) : Z :=
  let n := digits a - digits b in
  let '(x, y) := scale10 a b (- n) in
  if y <=? x then n + 1 else n.

(** The digits of Number::toString: the decimal [s * 10^e] with the fewest
    digits [k] that denotes the double [d = a / b]; among several, the one
    nearest to [d], and the even one on a tie.  Seventeen digits always
    suffice. *)
Fixpoint shortest (fuel : nat) (d : Z * Z) (a b n k : Z) : Z * Z :=
  let e := n - k in
  let '(x, y) := scale10 a b (- e) in
  let low := x / y in
  let high := low + 1 in
  let r := x mod y in
  let nearest := if 2 * r <? y then low
                 else if y <? 2 * r then high
                 else if Z.even low then low else high in
  match fuel with
  | O => (nearest, e)
  | S fuel' =>
      match rounds_to d low e, rounds_to d high e with
      | true, true => (nearest, e)
      | true, false => (low, e)
      | false, true => (high, e)
      | false, false => shortest fuel' d a b n (k + 1)
      end
  end.

(** Trailing zeros of the digits go into the exponent. *)
Fixpoint strip_zeros (fuel : nat) (s e : Z) : Z * Z :=
  match fuel with
  | O => (s, e)
  | S fuel' => if (0 <? s) && (s mod 10 =? 0) then strip_zeros fuel' (s / 10) (e + 1) else (s, e)
  end.

Fixpoint zeros (n : nat) : string :=
  match n with O => "" | S n' => String "0" (zeros n') end.

Fixpoint take (n : nat) (s : string) : string :=
  match n, s with
  | S n', String c rest => String c (take n' rest)
  | _, _ => ""
  end.

Fixpoint drop (n : nat) (s : string) : string :=
  match n, s with
  | S n', String _ rest => drop n' rest
  | _, _ => s
  end.

(** The layout of Number::toString for the digits [s] and the exponent
    [e]: plain digits up to 21 integer digits, a decimal point inside or
    after ["0."] down to [1e-6], exponent form otherwise. *)
Definition format (s e : Z) : string :=
  let ds := pretty s in
  let k := digits s in
  let n := k + e in
  if (k <=? n) && (n <=? 21) then ds +:+ zeros (Z.to_nat (n - k))
  else if (0 <? n) && (n <=? 21) then
    take (Z.to_nat n) ds +:+ "." +:+ drop (Z.to_nat n) ds
  else if (-6 <? n) && (n <=? 0) then "0." +:+ zeros (Z.to_nat (- n)) +:+ ds
  else
    let exponent := (if 0 <=? n - 1 then "+" else "-") +:+ pretty (Z.abs (n - 1)) in
    if k =? 1 then ds +:+ "e" +:+ exponent
    else take 1 ds +:+ "." +:+ drop 1 ds +:+ "e" +:+ exponent.

Definition finite_to_string (d : Z * Z) : string :=
  let '(a, b) := if 0 <=? snd d then (fst d * 2 ^ snd d, 1) else (fst d, 2 ^ (- snd d)) in
  let '(s, e) := shortest 17 d a b (position a b) 1 in
  let '(s, e) := strip_zeros 400 s e in
  format s e.

(** Number::toString of the double nearest to [num / den]. *)
Definition to_string (num den : Z) : string :=
  let d := to_double (Z.abs num) den in
  if is_zero d then "0"
  else (if num <? 0 then "-" else "") +:+
       (if overflows d then "Infinity" else finite_to_string d).

(** The number inside [JSON.stringify]: an infinity is written [null]. *)
Definition to_json (num den : Z) : string :=
  let d := to_double (Z.abs num) den in
  if overflows d then "null" else to_string num den.

(** ToBoolean of the double nearest to [num / den]. *)
Definition truthy (num den : Z) : bool :=
  negb (is_zero (to_double (Z.abs num) den)).

End Number.

Module JS.

(** ToBoolean. *)
Definition truthy (v : JSValue) : bool :=
  match v with
  | JUndefined | JNull => false
  | JBool b => b
  | JNum n => negb (n =? 0)
  | JDec s d => Number.truthy s (10 ^ Zpos d)
  | JStr s => negb (String.eqb s "")
  | JArr _ | JObj _ => true
  end.

Fixpoint assoc (k : string) (fields : list (string * JSValue)) : option JSValue :=
  match fields with
  | [] => None
  | (k', v) :: rest => if String.eqb k k' then Some v else assoc k rest
  end.

(** [join sep parts], as [Array.prototype.join] on strings. *)
Fixpoint join (sep : string) (parts : list string) : string :=
  match parts with
  | [] => ""
  | [p] => p
  | p :: rest => p +:+ sep +:+ join sep rest
  end.

(** ToString, as a template literal applies it. *)
Fixpoint to_string (v : JSValue) : string :=
  match v with
  | JUndefined => "undefined"
  | JNull => "null"
  | JBool true => "true"
  | JBool false => "false"
  | JNum n => Number.to_string n 1
  | JDec s d => Number.to_string s (10 ^ Zpos d)
  | JStr s => s
  | JArr items =>
      join "," (map (fun x => match x with
                              | JUndefined | JNull => ""
                              | _ => to_string x
                              end) items)
  | JObj _ => "[object Object]"
  end.

(** The [TypeError] of the engine for [base.prop] with [base] undefined or
    null (V8's wording). *)
Definition read_of_nullish (base : JSValue) (prop : string) : Exception :=
  ErrorInstance TypeError
    ("Cannot read properties of " +:+ to_string base +:+
     " (reading '" +:+ prop +:+ "')") None.

(** [base.prop].  Reading a property of [undefined] or [null] throws; an
    object yields its own property or [undefined].  The names read in this
    module ([response], [status], [data], [message], [access_token],
    [refresh_token]) are no properties of strings, numbers, booleans or
    arrays, which therefore yield [undefined]. *)
Definition get (base : JSValue) (prop : string) : Completion JSValue :=
  match base with
  | JUndefined | JNull => Throw (read_of_nullish base prop)
  | JObj fields => Normal (default JUndefined (assoc prop fields))
  | _ => Normal JUndefined
  end.

(** [base?.rest]: the whole rest of the chain is skipped, with value
    [undefined], when [base] is undefined or null. *)
Definition opt_chain (base : JSValue) (rest : JSValue -> Completion JSValue)
  : Completion JSValue :=
  match base with
  | JUndefined | JNull => Normal JUndefined
  | _ => rest base
  end.

(** [base.prop] read without a throw: the own property of an object, and
    [undefined] for everything else.  It agrees with [get] wherever [get]
    does not throw, and serves to state what a body holds. *)
Definition field (base : JSValue) (prop : string) : JSValue :=
  match base with
  | JObj fields => default JUndefined (assoc prop fields)
  | _ => JUndefined
  end.

(** The value is an object with an own property [prop]. *)
Definition has_field (base : JSValue) (prop : string) : bool :=
  match base with
  | JObj fields => match assoc prop fields with Some _ => true | None => false end
  | _ => false
  end.

(** The [typeof] operator. *)
Definition typeof (v : JSValue) : string :=
  match v with
  | JUndefined => "undefined"
  | JBool _ => "boolean"
  | JNum _ | JDec _ _ => "number"
  | JStr _ => "string"
  | JNull | JArr _ | JObj _ => "object"
  end.

Definition dquote : ascii := Eval cbv in ascii_of_nat 34.
Definition backslash : ascii := Eval cbv in ascii_of_nat 92.

Definition hex_digit (n : N) : ascii :=
  ascii_of_N (if (n <? 10)%N then 48 + n else 87 + n)%N.

(** One character of a JSON string literal (QuoteJSONString). *)
Definition quote_char (c : ascii) : string :=
  let n := N_of_ascii c in
  if Ascii.eqb c dquote then String backslash (String dquote "")
  else if Ascii.eqb c backslash then String backslash (String backslash "")
  else if (n =? 8)%N then String backslash "b"
  else if (n =? 9)%N then String backslash "t"
  else if (n =? 10)%N then String backslash "n"
  else if (n =? 12)%N then String backslash "f"
  else if (n =? 13)%N then String backslash "r"
  else if (n <? 32)%N then
    String backslash
      ("u00" +:+ String (hex_digit (n / 16)) (String (hex_digit (n mod 16)) ""))
  else String c "".

Fixpoint quote_body (s : string) : string :=
  match s with
  | EmptyString => ""
  | String c rest => quote_char c +:+ quote_body rest
  end.

Definition quote (s : string) : string :=
  String dquote (quote_body s +:+ String dquote "").

(** [JSON.stringify(v)]: [None] stands for the result [undefined].  A
    property whose value is [undefined] is left out of an object and is
    written [null] inside an array. *)
Fixpoint JSON_stringify (v : JSValue) : option string :=
  match v with
  | JUndefined => None
  | JNull => Some "null"
  | JBool true => Some "true"
  | JBool false => Some "false"
  | JNum n => Some (Number.to_json n 1)
  | JDec s d => Some (Number.to_json s (10 ^ Zpos d))
  | JStr s => Some (quote s)
  | JArr items =>
      Some ("[" +:+ join "," (map (fun x => default "null" (JSON_stringify x)) items)
                +:+ "]")
  | JObj fields =>
      let member (kv : string * JSValue) : list string :=
        match JSON_stringify (snd kv) with
        | Some s => [quote (fst kv) +:+ ":" +:+ s]
        | None => []
        end in
      Some ("{" +:+ join "," (concat (map member fields)) +:+ "}")
  end.

End JS.


(** ** [URLSearchParams]

    The parameter list of a [URLSearchParams] object, in insertion order,
    and its [toString()]: the application/x-www-form-urlencoded serializer
    of the URL standard, which Node implements.  A byte is kept when it is
    an ASCII letter or digit or one of [* - . _], a space becomes [+], and
    every other byte becomes [%XX] with upper-case hexadecimal digits. *)
Module URLSearchParams.

Definition t : Type := list (string * string).

Definition unreserved (c : ascii) : bool :=
  let n := N_of_ascii c in
  ((48 <=? n) && (n <=? 57) || (65 <=? n) && (n <=? 90) || (97 <=? n) && (n <=? 122)
   || (n =? 42) || (n =? 45) || (n =? 46) || (n =? 95))%N.

Definition HEX_digit (n : N) : ascii :=
  ascii_of_N (if (n <? 10)%N then 48 + n else 55 + n)%N.

Definition encode_byte (c : ascii) : string :=
  let n := N_of_ascii c in
  if (n =? 32)%N then "+"
  else if unreserved c then String c ""
  else String "%" (String (HEX_digit (n / 16)) (String (HEX_digit (n mod 16)) "")).

Fixpoint encode (s : string) : string :=
  match s with
  | EmptyString => ""
  | String c rest => encode_byte c +:+ encode rest
  end.

Definition encode_pair (kv : string * string) : string :=
  encode (fst kv) +:+ "=" +:+ encode (snd kv).

Definition toString (params : t) : string :=
  JS.join "&" (map encode_pair params).

(** [params.append(name, value)]. *)
Definition append (params : t) (name value : string) : t :=
  (params ++ [(name, value)])%list.

End URLSearchParams.

(** ** Reading a query string back

    The application/x-www-form-urlencoded parser of the URL standard, which
    is what "URL-decoding a query string" means: split on [&], drop empty
    pieces, cut each piece at its first [=], turn [+] into a space and
    percent-decode name and value.  This side is not code of the library; it
    gives the meaning of the decoded query in the statements below. *)
Module QueryString.

Definition hex_value (c : ascii) : option N :=
  let n := N_of_ascii c in
  if ((48 <=? n) && (n <=? 57))%N then Some (n - 48)%N
  else if ((65 <=? n) && (n <=? 70))%N then Some (n - 55)%N
  else if ((97 <=? n) && (n <=? 102))%N then Some (n - 87)%N
  else None.

Fixpoint plus_to_space (s : string) : string :=
  match s with
  | EmptyString => ""
  | String c rest =>
      String (if Ascii.eqb c "+" then " "%char else c) (plus_to_space rest)
  end.

Fixpoint percent_decode (s : string) : string :=
  match s with
  | EmptyString => ""
  | String c rest =>
      if Ascii.eqb c "%" then
        match rest with
        | String h (String l rest') =>
            match hex_value h, hex_value l with
            | Some a, Some b => String (ascii_of_N (16 * a + b)) (percent_decode rest')
            | _, _ => String c (percent_decode rest)
            end
        | _ => String c (percent_decode rest)
        end
      else String c (percent_decode rest)
  end.

Definition decode (s : string) : string := percent_decode (plus_to_space s).

(** The pieces of [s] between the occurrences of [sep]. *)
Fixpoint split_on (sep : ascii) (s : string) : list string :=
  match s with
  | EmptyString => [""]
  | String c rest =>
      if Ascii.eqb c sep then "" :: split_on sep rest
      else match split_on sep rest with
           | piece :: pieces => String c piece :: pieces
           | [] => [String c ""]
           end
  end.

(** [s] cut at the first occurrence of [sep]; everything and the empty
    string when there is none. *)
Fixpoint cut_at (sep : ascii) (s : string) : string * string :=
  match s with
  | EmptyString => ("", "")
  | String c rest =>
      if Ascii.eqb c sep then ("", rest)
      else let '(before, after) := cut_at sep rest in (String c before, after)
  end.

Definition nonempty (s : string) : bool :=
  match s with EmptyString => false | String _ _ => true end.

Definition parse_pair (piece : string) : string * string :=
  let '(name, value) := cut_at "=" piece in (decode name, decode value).

Definition parse (query : string) : list (string * string) :=
  map parse_pair (List.filter nonempty (split_on "&" query)).


(** [p] holds of every character of [s]. *)
Fixpoint all_chars (p : ascii -> bool) (s : string) : bool :=
  match s with
  | EmptyString => true
  | String c rest => p c && all_chars p rest
  end.

(** The characters the serializer can emit for a name or a value. *)
Definition encoded_char (c : ascii) : bool :=
  URLSearchParams.unreserved c || Ascii.eqb c "+" || Ascii.eqb c "%".

(** [sep] does not occur in [s]. *)
Definition free_of (sep : ascii) (s : string) : bool :=
  all_chars (fun c => negb (Ascii.eqb c sep)) s.

End QueryString.

(** ** The instance, the transport and the effect monad *)

(** The fields of a [DiscordAuthorization] instance; [string | null] is
    [option string]. *)
Record DiscordAuthorization : Type := {
  clientId : string;
  clientSecret : string;
  redirectUri : string;
  accessToken : option string;
  refreshToken : option string;
  clientToken : option string;
}.

Definition baseURL : string := "https://discord.com/api/v10".

(** [constructor(options)]: both session tokens start as [null]. *)
Definition new_DiscordAuthorization
    (id secret redirect : string) (bot : option string) : DiscordAuthorization :=
  {| clientId := id; clientSecret := secret; redirectUri := redirect;
     accessToken := None; refreshToken := None; clientToken := bot |}.

(** [`${token}`] for a nullable string. *)
Definition nullable_to_string (token : option string) : string :=
  match token with
  | Some s => s
  | None => "null"
  end.

(** [!token] is false exactly for a non-empty string. *)
Definition nullable_truthy (token : option string) : bool :=
  match token with
  | Some s => JS.truthy (JStr s)
  | None => false
  end.

(** The options bag a call site hands to [request]: the fields of
    [AxiosRequestConfig] that the call sites and the executor touch.  An
    absent [headers] is [None]; an absent [params] or [data] is
    [JUndefined]. *)
Record RequestOptions : Type := {
  opt_headers : option (gmap string string);
  opt_params : JSValue;
  opt_data : JSValue;
}.

Definition no_options : RequestOptions :=
  {| opt_headers := None; opt_params := JUndefined; opt_data := JUndefined |}.

(** The request as the transport receives it. *)
Record AxiosRequestConfig : Type := {
  method : string;
  url : string;
  headers : gmap string string;
  params : JSValue;
  data : JSValue;
}.

(** What comes back from the network for one request. *)
Inductive NetReply : Type :=
| NoResponse
| HttpResponse (status : Z) (body : JSValue).

(** The instance fields together with the outbound calls made so far. *)
Record World : Type := {
  this : DiscordAuthorization;
  outbound : list AxiosRequestConfig;
}.

Definition M (A : Type) : Type := World -> Completion A * World.

Definition ret {A} (a : A) : M A := fun w => (Normal a, w).

Definition bind {A B} (m : M A) (k : A -> M B) : M B :=
  fun w =>
    match m w with
    | (Normal a, w') => k a w'
    | (Throw e, w') => (Throw e, w')
    end.

Definition throw {A} (e : Exception) : M A := fun w => (Throw e, w).

Definition lift {A} (c : Completion A) : M A := fun w => (c, w).

(** [try { body } catch (error) { handler }]. *)
Definition try_catch {A} (body : M A) (handler : Exception -> M A) : M A :=
  fun w =>
    match body w with
    | (Normal a, w') => (Normal a, w')
    | (Throw e, w') => handler e w'
    end.

Definition read_this : M DiscordAuthorization := fun w => (Normal (this w), w).

Definition write_this (f : DiscordAuthorization -> DiscordAuthorization) : M unit :=
  fun w => (Normal tt, {| this := f (this w); outbound := outbound w |}).

Notation "x <- m ;; k" := (bind m (fun x => k))
  (at level 100, m at next level, right associativity).
Notation "x <~ c ;; k" := (cbind c (fun x => k))
  (at level 100, c at next level, right associativity).

(** The value bound by [catch (error)]. An [Error] instance is an object
    with its [message] and no [response]. *)
Definition caught (e : Exception) : JSValue :=
  match e with
  | Rejection v => v
  | ErrorInstance _ message _ => JObj [("message", JStr message)]
  end.

Section Transport.

(** The network: the reply to each outbound request. *)
Variable net : AxiosRequestConfig -> NetReply.

(** axios' default [validateStatus]. *)
Definition validateStatus (status : Z) : bool :=
  (200 <=? status) && (status <? 300).

(** Modelled from the spec: the transport collaborator, axios, is a library
    outside the repository that returns status and parsed body or raises on
    a status outside 200..299.  [axios.request(config)] is one outbound
    call.  The promise resolves with the response when [validateStatus]
    accepts its status; it rejects with an error holding the response
    otherwise, and with an error that has no [response] when nothing came
    back. *)
Definition axios_request (config : AxiosRequestConfig) : M JSValue :=
  fun w =>
    let w' := {| this := this w; outbound := (outbound w ++ [config])%list |} in
    match net config with
    | HttpResponse status body =>
        let response := JObj [("data", body); ("status", JNum status)] in
        if validateStatus status then (Normal response, w')
        else (Throw (Rejection
                (JObj [("message",
                        JStr ("Request failed with status code "
                              +:+ JS.to_string (JNum status)));
                       ("response", response)])), w')
    | NoResponse =>
        (Throw (Rejection (JObj [("message", JStr "Network Error")])), w')
    end.

(** [axios.post(url, data, config)]. *)
Definition axios_post (target : string) (payload : JSValue)
    (config_headers : gmap string string) : M JSValue :=
  axios_request {| method := "POST"; url := target; headers := config_headers;
                   params := JUndefined; data := payload |}.

End Transport.

(** ** [class DiscordAuthorization] *)

(** The [errorMessages] table of [request].  A status indexes it through
    its property key, the decimal string. *)
Definition errorMessages_table : list (string * string) :=
  [ ("200", "Success");
    ("300", "Multiple Choices");
    ("400", "Bad request");
    ("401", "Access token must be valid.");
    ("429", "Request limit reached. Try again later.");
    ("500", "Discord API Server Error");
    ("404", "Not found.");
    ("403", "You are not authorized to perform this action.") ].

Fixpoint table_lookup (key : string) (table : list (string * string)) : option string :=
  match table with
  | [] => None
  | (k, v) :: rest => if String.eqb key k then Some v else table_lookup key rest
  end.

(** [errorMessages[key]]; [None] is [undefined]. *)
Definition errorMessages (key : JSValue) : option string :=
  table_lookup (JS.to_string key) errorMessages_table.

(** [error?.response.status] and [error?.response.data]: only the first
    link is optional. *)
Definition error_response_status (error : JSValue) : Completion JSValue :=
  JS.opt_chain error (fun e => r <~ JS.get e "response" ;; JS.get r "status").

Definition error_response_data (error : JSValue) : Completion JSValue :=
  JS.opt_chain error (fun e => r <~ JS.get e "response" ;; JS.get r "data").

(** [`${JSON.stringify(v)}`]. *)
Definition stringify_in_template (v : JSValue) : string :=
  default "undefined" (JS.JSON_stringify v).

(** The body of the [catch (error)] clause of [request]; it always throws. *)
Definition request_catch (error : JSValue) : Completion JSValue :=
  status <~ error_response_status error ;;
  errorMessage <~
    match errorMessages status with
    | Some m => Normal m
    | None =>
        status' <~ error_response_status error ;;
        Normal ("Status " +:+ JS.to_string status' +:+ " is not handled yet.")
    end ;;
  d <~ error_response_data error ;;
  has_message <~
    (if JS.truthy d then
       d' <~ error_response_data error ;;
       m <~ JS.get d' "message" ;;
       Normal (JS.truthy m)
     else Normal false) ;;
  if has_message : bool then
    status <~ error_response_status error ;;
    match status with
    | JNum 401 =>
        d <~ error_response_data error ;;
        Throw (ErrorInstance InvalidAccessTokenError errorMessage (JS.JSON_stringify d))
    | JNum 404 =>
        d <~ error_response_data error ;;
        Throw (ErrorInstance NotFoundError errorMessage (JS.JSON_stringify d))
    | JNum 400 =>
        d <~ error_response_data error ;;
        Throw (ErrorInstance BadRequestError errorMessage (JS.JSON_stringify d))
    | JNum 429 =>
        d <~ error_response_data error ;;
        Throw (ErrorInstance RateLimitedError errorMessage (JS.JSON_stringify d))
    | JNum 500 =>
        d <~ error_response_data error ;;
        Throw (ErrorInstance DiscordAPIError errorMessage (JS.JSON_stringify d))
    | JNum 403 =>
        d <~ error_response_data error ;;
        Throw (ErrorInstance UnauthorizedError errorMessage (JS.JSON_stringify d))
    | _ =>
        d <~ error_response_data error ;;
        Throw (ErrorInstance Error
                 (errorMessage +:+ " Response Data: " +:+ stringify_in_template d) None)
    end
  else Throw (ErrorInstance Error errorMessage None).

(** The result of [exchangeCodeForTokens]. *)
Record TokenPair : Type := {
  pair_accessToken : JSValue;
  pair_refreshToken : JSValue;
}.

Section Authenticator.

Variable net : AxiosRequestConfig -> NetReply.

(** [getType] of [../util/getType] is not among the sources and stays a
    parameter; the methods below only compare its answer with ["string"]. *)
Variable getType : JSValue -> string.

(** The request [request] hands to the transport. *)
Definition requestOptions (self : DiscordAuthorization)
    (method endpoint : string) (options : RequestOptions) : AxiosRequestConfig :=
  let headers :=
    <["Authorization" := "Bearer " +:+ nullable_to_string (accessToken self)]>
      (default ∅ (opt_headers options)) in
  let requestOptions :=
    {| method := method; url := baseURL +:+ endpoint; headers := headers;
       params := opt_params options; data := opt_data options |} in
  if String.eqb method "GET" && JS.truthy (opt_params options) then
    {| method := method; url := url requestOptions; headers := headers;
       params := opt_params options; data := data requestOptions |}
  else if existsb (String.eqb method) ["PUT"; "POST"; "PATCH"] then
    {| method := method; url := url requestOptions; headers := headers;
       params := params requestOptions; data := opt_data options |}
  else requestOptions.

(** [private async request(method, endpoint, options = {})]. *)
Definition request (method endpoint : string) (options : RequestOptions) : M JSValue :=
  self <- read_this ;;
  try_catch
    (response <- axios_request net (requestOptions self method endpoint options) ;;
     lift (JS.get response "data"))
    (fun error => lift (request_catch (caught error))).

(** [generateOauth2Link({ scopes }, state = "1bac472")]. *)
Definition generateOauth2Link (self : DiscordAuthorization)
    (scopes : list string) (state : JSValue) : Completion string :=
  let state := match state with JUndefined => JStr "1bac472" | _ => state end in
  if negb (String.eqb (getType state) "string") then
    Throw (ErrorInstance TypeError
             ("Expected type of state to be a 'string' but got " +:+ getType state
              +:+ " instead.") None)
  else
    let params : URLSearchParams.t :=
      [ ("client_id", clientId self);
        ("redirect_uri", redirectUri self);
        ("response_type", "code");
        ("state", JS.to_string state);
        ("scope", JS.join " " scopes) ] in
    Normal ("https://discord.com/oauth2/authorize?" +:+ URLSearchParams.toString params).

(** [exchangeCodeForTokens(code)]. *)
Definition exchangeCodeForTokens (code : JSValue) : M TokenPair :=
  if negb (String.eqb (getType code) "string") then
    throw (ErrorInstance TypeError
             ("Expected type of code to exchange to be 'string' but got "
              +:+ getType code) None)
  else
    self <- read_this ;;
    let params : URLSearchParams.t :=
      [ ("client_id", clientId self);
        ("client_secret", clientSecret self);
        ("grant_type", "authorization_code");
        ("code", JS.to_string code);
        ("redirect_uri", redirectUri self) ] in
    response <- request "POST" "/oauth2/token"
      {| opt_headers := Some {[ "Content-Type" := "application/x-www-form-urlencoded" ]};
         opt_params := JUndefined;
         opt_data := JStr (URLSearchParams.toString params) |} ;;
    access <- lift (JS.opt_chain response
                      (fun r => d <~ JS.get r "data" ;; JS.get d "access_token")) ;;
    refresh <- lift (JS.opt_chain response
                       (fun r => d <~ JS.get r "data" ;; JS.get d "refresh_token")) ;;
    ret {| pair_accessToken := access; pair_refreshToken := refresh |}.

(** [setAccessToken(token)] and [setRevokeToken(token)]. *)
Definition setAccessToken (token : string) : M unit :=
  write_this (fun self =>
    {| clientId := clientId self; clientSecret := clientSecret self;
       redirectUri := redirectUri self; accessToken := Some token;
       refreshToken := refreshToken self; clientToken := clientToken self |}).

Definition setRevokeToken (token : string) : M unit :=
  write_this (fun self =>
    {| clientId := clientId self; clientSecret := clientSecret self;
       redirectUri := redirectUri self; accessToken := accessToken self;
       refreshToken := Some token; clientToken := clientToken self |}).

(** [revokeToken()]. *)
Definition revokeToken : M unit :=
  self <- read_this ;;
  if negb (nullable_truthy (accessToken self)) || negb (nullable_truthy (refreshToken self))
  then
    throw (ErrorInstance Error
             "Access token and refresh token are required to revoke the token." None)
  else
    let params : URLSearchParams.t := [] in
    let params := URLSearchParams.append params "client_id" (clientId self) in
    let params := URLSearchParams.append params "client_secret" (clientSecret self) in
    let params :=
      URLSearchParams.append params "token" (nullable_to_string (refreshToken self)) in
    _ <- axios_post net "https://discord.com/api/oauth2/token/revoke"
           (JStr (URLSearchParams.toString params))
           {[ "Content-Type" := "application/x-www-form-urlencoded" ]} ;;
    _ <- write_this (fun self =>
           {| clientId := clientId self; clientSecret := clientSecret self;
              redirectUri := redirectUri self; accessToken := None;
              refreshToken := refreshToken self; clientToken := clientToken self |}) ;;
    write_this (fun self =>
      {| clientId := clientId self; clientSecret := clientSecret self;
         redirectUri := redirectUri self; accessToken := accessToken self;
         refreshToken := None; clientToken := clientToken self |}).

(** [getApplication()]. *)
Definition getApplication : M JSValue :=
  self <- read_this ;;
  response <- request "GET" "/oauth2/applications/@me"
    {| opt_headers :=
         Some {[ "Authorization" := "Bot " +:+ nullable_to_string (clientToken self) ]};
       opt_params := JUndefined;
       opt_data := JUndefined |} ;;
  lift (JS.opt_chain response (fun r => JS.get r "data")).

(** [getMyInfo()]. *)
Definition getMyInfo : M JSValue :=
  response <- request "GET" "/users/@me" no_options ;;
  lift (JS.opt_chain response (fun r => JS.get r "data")).

End Authenticator.

(** ** The earlier revision of [request]

    The sources hold an earlier copy of the class whose [request] tests the
    status of a resolved response itself and returns the whole response.
    Its statuses are numbers, on which [==] and [===] agree. *)
Module Legacy.
Section Request.

Variable net : AxiosRequestConfig -> NetReply.

Definition requestOptions (self : DiscordAuthorization)
    (method endpoint : string) (options : RequestOptions) : AxiosRequestConfig :=
  let headers :=
    <["Authorization" := "Bearer " +:+ nullable_to_string (accessToken self)]>
      (default ∅ (opt_headers options)) in
  {| method := method; url := baseURL +:+ endpoint; headers := headers;
     params := opt_params options; data := opt_data options |}.

Definition request (method endpoint : string) (options : RequestOptions) : M JSValue :=
  self <- read_this ;;
  try_catch
    (response <- axios_request net (requestOptions self method endpoint options) ;;
     status <- lift (JS.get response "status") ;;
     match status with
     | JNum 200 | JNum 300 => ret response
     | JNum 401 => throw (ErrorInstance Error "Access token must be valid." None)
     | JNum 429 => throw (ErrorInstance Error "Request limit reached. Try again later" None)
     | JNum 500 => throw (ErrorInstance Error "Discord API Server Error" None)
     | JNum 404 => throw (ErrorInstance Error "Invalid request." None)
     | JNum 403 =>
         throw (ErrorInstance Error "You are not authorized to perform this action." None)
     | _ =>
         throw (ErrorInstance Error
                  ("Status " +:+ JS.to_string status +:+ " is not handled yet.") None)
     end)
    (fun error =>
       message <- lift (JS.get (caught error) "message") ;;
       throw (ErrorInstance Error (JS.to_string message) None)).

End Request.
End Legacy.

(** ** Sample inputs *)

Definition sample_self : DiscordAuthorization :=
  {| clientId := "112233445566778899";
     clientSecret := "s3cret";
     redirectUri := "https://example.org/callback";
     accessToken := Some "user-token";
     refreshToken := Some "refresh-token";
     clientToken := Some "bot-token" |}.

Definition sample_world : World := {| this := sample_self; outbound := [] |}.

(** A session that holds an access token only. *)
Definition access_only_world : World :=
  {| this := {| clientId := "112233445566778899";
                clientSecret := "s3cret";
                redirectUri := "https://example.org/callback";
                accessToken := Some "user-token";
                refreshToken := None;
                clientToken := None |};
     outbound := [] |}.

(** A network that gives the same reply to every request. *)
Definition always (reply : NetReply) : AxiosRequestConfig -> NetReply :=
  fun _ => reply.

(** ** The other call sites of the class *)

(** The argument of [joinGuild]: the three fields the method reads. *)
Record GuildJoinOptions : Type := {
  guildId : JSValue;
  userId : JSValue;
  roles : JSValue;
}.

(** A nullable string as a value, as it goes into an object literal. *)
Definition nullable_value (token : option string) : JSValue :=
  match token with
  | Some s => JStr s
  | None => JNull
  end.

Definition LF : ascii := Eval cbv in ascii_of_nat 10.
Definition TAB : ascii := Eval cbv in ascii_of_nat 9.

Section CallSites.

Variable net : AxiosRequestConfig -> NetReply.
Variable getType : JSValue -> string.

(** [axios.put(url, data, config)]. *)
Definition axios_put (target : string) (payload : JSValue)
    (config_headers : gmap string string) : M JSValue :=
  axios_request net {| method := "PUT"; url := target; headers := config_headers;
                       params := JUndefined; data := payload |}.

(** [getUserInfo()] (deprecated twin of [getMyInfo]). *)
Definition getUserInfo : M JSValue :=
  response <- request net "GET" "/users/@me" no_options ;;
  lift (JS.opt_chain response (fun r => JS.get r "data")).

(** [getUserConnections()] and [getMyConnections()]. *)
Definition getUserConnections : M JSValue :=
  response <- request net "GET" "/users/@me/connections" no_options ;;
  lift (JS.opt_chain response (fun r => JS.get r "data")).

Definition getMyConnections : M JSValue :=
  response <- request net "GET" "/users/@me/connections" no_options ;;
  lift (JS.opt_chain response (fun r => JS.get r "data")).

(** [getGuilds()]. *)
Definition getGuilds : M JSValue :=
  response <- request net "GET" "/users/@me/guilds" no_options ;;
  lift (JS.opt_chain response (fun r => JS.get r "data")).

(** [joinGuild(options)]: three input checks, then a [PUT] issued directly
    through the transport, outside [request]. *)
Definition joinGuild (options : GuildJoinOptions) : M JSValue :=
  if negb (String.eqb (getType (guildId options)) "snowflake") then
    throw (ErrorInstance TypeError
             ("Expected guild id to be a 'snowflake' but got "
              +:+ getType (guildId options) +:+ " instead.") None)
  else if negb (String.eqb (getType (roles options)) "array") then
    throw (ErrorInstance TypeError
             ("Expected roles to be an 'array' but got "
              +:+ getType (roles options) +:+ " instead.") None)
  else if negb (String.eqb (getType (userId options)) "snowflake") then
    throw (ErrorInstance TypeError
             ("Expected user id to be a 'snowflake' but got "
              +:+ getType (userId options) +:+ " instead.") None)
  else
    self <- read_this ;;
    let endpoint :=
      "/guilds/" +:+ JS.to_string (guildId options) +:+ "/members/"
      +:+ JS.to_string (userId options) in
    let rolesToAdd := if JS.truthy (roles options) then roles options else JArr [] in
    response <- axios_put (baseURL +:+ endpoint)
      (JObj [("roles", rolesToAdd);
             ("access_token", nullable_value (accessToken self))])
      (<["Content-Type" := "application/json"]>
         {[ "Authorization" := "Bot " +:+ nullable_to_string (clientToken self) ]}) ;;
    lift (JS.get response "data").

(** The [TypeError] of [getGuildMember] and [getMyInfoFromGuild]; the
    template holds a line feed and a tab. *)
Definition not_a_snowflake (answer : string) : Exception :=
  ErrorInstance TypeError
    ("guildId is not a valid snowflake." +:+ String LF "Expected: 'snowflake'"
     +:+ String TAB "Received: " +:+ answer) None.

(** [getGuildMember(guildId)] (deprecated) and [getMyInfoFromGuild(guildId)]. *)
Definition getGuildMember (guild : JSValue) : M JSValue :=
  if negb (String.eqb (getType guild) "snowflake") then
    throw (not_a_snowflake (getType guild))
  else
    response <- request net "GET"
      ("/users/@me/guilds/" +:+ JS.to_string guild +:+ "/member") no_options ;;
    lift (JS.opt_chain response (fun r => JS.get r "data")).

Definition getMyInfoFromGuild (guild : JSValue) : M JSValue :=
  if negb (String.eqb (getType guild) "snowflake") then
    throw (not_a_snowflake (getType guild))
  else
    response <- request net "GET"
      ("/users/@me/guilds/" +:+ JS.to_string guild +:+ "/member") no_options ;;
    lift (JS.opt_chain response (fun r => JS.get r "data")).

(** [username()]: [userInfo.username] on what [getMyInfo] returned. *)
Definition username : M JSValue :=
  userInfo <- getMyInfo net ;;
  lift (JS.get userInfo "username").

End CallSites.

(** ** Call sites of the earlier revision

    [exchangeCodeForTokens] and [revokeToken] of the earlier copy: the type
    check of the code asks for a ["snowflake"], the whole response comes
    back from [request], and a [catch] replaces every failure by one fixed
    error. *)
Module LegacyCallSites.
Section CallSites.

Variable net : AxiosRequestConfig -> NetReply.
Variable getType : JSValue -> string.

Definition exchangeCodeForTokens (code : JSValue) : M TokenPair :=
  if negb (String.eqb (getType code) "snowflake") then
    throw (ErrorInstance TypeError
             ("Expected type of code to exchange to be 'snowflake' but got "
              +:+ getType code) None)
  else
    self <- read_this ;;
    let params : URLSearchParams.t :=
      [ ("client_id", clientId self);
        ("client_secret", clientSecret self);
        ("grant_type", "authorization_code");
        ("code", JS.to_string code);
        ("redirect_uri", redirectUri self) ] in
    try_catch
      (response <- Legacy.request net "POST" "/oauth2/token"
         {| opt_headers := Some {[ "Content-Type" := "application/x-www-form-urlencoded" ]};
            opt_params := JUndefined;
            opt_data := JStr (URLSearchParams.toString params) |} ;;
       access <- lift (JS.opt_chain response
                         (fun r => d <~ JS.get r "data" ;; JS.get d "access_token")) ;;
       refresh <- lift (JS.opt_chain response
                          (fun r => d <~ JS.get r "data" ;; JS.get d "refresh_token")) ;;
       ret {| pair_accessToken := access; pair_refreshToken := refresh |})
      (fun _ => throw (ErrorInstance Error "Failed to exchange code for tokens" None)).

Definition revokeToken : M unit :=
  self <- read_this ;;
  if negb (nullable_truthy (accessToken self)) || negb (nullable_truthy (refreshToken self))
  then
    throw (ErrorInstance Error
             "Access token and refresh token are required to revoke the token." None)
  else
    let params : URLSearchParams.t := [] in
    let params := URLSearchParams.append params "client_id" (clientId self) in
    let params := URLSearchParams.append params "client_secret" (clientSecret self) in
    let params :=
      URLSearchParams.append params "token" (nullable_to_string (accessToken self)) in
    try_catch
      (_ <- axios_post net "https://discord.com/api/oauth2/token/revoke"
              (JStr (URLSearchParams.toString params))
              {[ "Content-Type" := "application/x-www-form-urlencoded" ]} ;;
       _ <- write_this (fun self =>
              {| clientId := clientId self; clientSecret := clientSecret self;
                 redirectUri := redirectUri self; accessToken := None;
                 refreshToken := refreshToken self; clientToken := clientToken self |}) ;;
       write_this (fun self =>
         {| clientId := clientId self; clientSecret := clientSecret self;
            redirectUri := redirectUri self; accessToken := accessToken self;
            refreshToken := None; clientToken := clientToken self |}))
      (fun _ => throw (ErrorInstance Error "Failed to revoke token" None)).

End CallSites.
End LegacyCallSites.

(** ** Vocabulary of the statements *)

(** The statuses that the [switch] of [request] names, each with the class
    it constructs and the text the [errorMessages] table holds for it. *)
Definition classified_statuses : list (Z * (ErrorClass * string)) :=
  [ (401, (InvalidAccessTokenError, "Access token must be valid."));
    (404, (NotFoundError, "Not found."));
    (400, (BadRequestError, "Bad request"));
    (429, (RateLimitedError, "Request limit reached. Try again later."));
    (500, (DiscordAPIError, "Discord API Server Error"));
    (403, (UnauthorizedError, "You are not authorized to perform this action.")) ].

(** The value of [errorMessage] in the [catch] clause for a numeric status. *)
Definition status_text (status : Z) : string :=
  match errorMessages (JNum status) with
  | Some text => text
  | None => "Status " +:+ JS.to_string (JNum status) +:+ " is not handled yet."
  end.

(** The credentials of an instance: what the constructor sets for good. *)
Definition credentials (self : DiscordAuthorization)
  : string * string * string * option string :=
  (clientId self, clientSecret self, redirectUri self, clientToken self).

(** Every character of the string is a decimal digit. *)
Fixpoint all_digits (s : string) : bool :=
  match s with
  | EmptyString => true
  | String c rest =>
      let n := N_of_ascii c in ((48 <=? n) && (n <=? 57))%N && all_digits rest
  end.

(** Modelled from the spec: [getType] of [../util/getType] is not among the
    sources.  The call sites compare its answer with ["string"] (state and
    code), ["snowflake"] (guild and user ids, which are strings) and
    ["array"] (roles), and the spec describes a snowflake as a numeric
    identifier transmitted as a numeric string.  This classifier answers
    ["snowflake"] for a non-empty string of decimal digits, ["string"] for
    every other string, ["array"] for an array and the [typeof] tag
    otherwise. *)
Definition sample_getType (v : JSValue) : string :=
  match v with
  | JStr s => if QueryString.nonempty s && all_digits s then "snowflake" else "string"
  | JArr _ => "array"
  | _ => JS.typeof v
  end.

(** An options bag for [joinGuild]. *)
Definition sample_join : GuildJoinOptions :=
  {| guildId := JStr "197038439483310086";
     userId := JStr "80351110224678912";
     roles := JArr [JStr "197038439483310099"] |}.

(** The double quote, to spell out serialized bodies in the statements. *)
Definition DQ : string := String "034"%char "".

(** * Properties *)

(** ** Numbers in strings

    How numbers come out of [JSON.stringify] and of a template literal:
    integers in full up to 21 digits and in exponent form from [1e+21] on,
    an integer beyond 2^53 as the double nearest to it, decimals with the
    fewest digits that denote the same double, and an infinity as [null]. *)
Lemma number_rendering :
  JS.to_string (JNum 401) = "401" /\
  JS.JSON_stringify (JNum 0) = Some "0" /\
  JS.JSON_stringify (JNum (-604800)) = Some "-604800" /\
  JS.JSON_stringify (JNum 9007199254740993) = Some "9007199254740992" /\
  JS.JSON_stringify (JNum 12345678901234567890) = Some "12345678901234567000" /\
  JS.JSON_stringify (JNum 999999999999999999999) = Some "1e+21" /\
  JS.JSON_stringify (JNum (10 ^ 21)) = Some "1e+21" /\
  JS.JSON_stringify (JNum (123456789 * 10 ^ 20)) = Some "1.23456789e+28" /\
  JS.JSON_stringify (JDec 5 1) = Some "0.5" /\
  JS.JSON_stringify (JDec 6457 2) = Some "64.57" /\
  JS.JSON_stringify (JDec 30000000000000004 17) = Some "0.30000000000000004" /\
  JS.JSON_stringify (JDec 1 6) = Some "0.000001" /\
  JS.JSON_stringify (JDec 1 7) = Some "1e-7" /\
  JS.JSON_stringify (JDec (-15) 1) = Some "-1.5" /\
  JS.JSON_stringify (JDec 5 324) = Some "5e-324" /\
  JS.JSON_stringify (JNum (10 ^ 400)) = Some "null" /\
  JS.to_string (JNum (10 ^ 400)) = "Infinity" /\
  JS.truthy (JDec 1 400) = false /\
  JS.truthy (JDec 5 1) = true /\
  JS.truthy (JNum 0) = false.
Proof. vm_compute. repeat split. Qed.

(** A body with a number that has decimals and one beyond 10^21. *)
Lemma stringify_sample :
  JS.JSON_stringify
    (JObj [("message", JStr "x"); ("n", JNum (10 ^ 21));
           ("retry_after", JDec 6457 2); ("gone", JUndefined);
           ("list", JArr [JNull; JUndefined; JBool true])])
  = Some ("{" +:+ DQ +:+ "message" +:+ DQ +:+ ":" +:+ DQ +:+ "x" +:+ DQ
          +:+ "," +:+ DQ +:+ "n" +:+ DQ +:+ ":1e+21"
          +:+ "," +:+ DQ +:+ "retry_after" +:+ DQ +:+ ":64.57"
          +:+ "," +:+ DQ +:+ "list" +:+ DQ +:+ ":[null,null,true]}").
Proof. vm_compute. reflexivity. Qed.

(** ** The query string round trip *)

Module QueryFacts.
Import URLSearchParams QueryString.

Ltac each_byte c := destruct c as [[] [] [] [] [] [] [] []].

Lemma all_chars_app p a b :
  all_chars p (a +:+ b) = all_chars p a && all_chars p b.
Proof.
  induction a as [|c a IH]; simpl; [reflexivity|].
  rewrite IH. apply andb_assoc.
Qed.


Lemma all_chars_impl (p q : ascii -> bool) s :
  (forall c, p c = true -> q c = true) ->
  all_chars p s = true -> all_chars q s = true.
Proof.
  intros Hpq. induction s as [|c s IH]; simpl; [reflexivity|].
  intros [Hc Hs]%andb_prop. rewrite (Hpq c Hc), (IH Hs). reflexivity.
Qed.

Lemma encode_byte_chars c : all_chars encoded_char (encode_byte c) = true.
Proof. each_byte c; reflexivity. Qed.

Lemma encode_chars s : all_chars encoded_char (encode s) = true.
Proof.
  induction s as [|c s IH]; simpl; [reflexivity|].
  rewrite all_chars_app, encode_byte_chars, IH. reflexivity.
Qed.

Lemma encoded_char_separators c :
  encoded_char c = true ->
  negb (Ascii.eqb c "&") = true /\ negb (Ascii.eqb c "=") = true
  /\ negb (Ascii.eqb c "#") = true.
Proof. each_byte c; vm_compute; intros H; first [discriminate H | repeat split]. Qed.

Lemma encode_free_of_amp s : free_of "&" (encode s) = true.
Proof.
  apply (all_chars_impl encoded_char); [|apply encode_chars].
  intros c Hc. apply (encoded_char_separators c Hc).
Qed.

Lemma encode_free_of_eq s : free_of "=" (encode s) = true.
Proof.
  apply (all_chars_impl encoded_char); [|apply encode_chars].
  intros c Hc. apply (encoded_char_separators c Hc).
Qed.


(** Decoding undoes encoding, byte by byte. *)
Lemma plus_to_space_app a b :
  plus_to_space (a +:+ b) = plus_to_space a +:+ plus_to_space b.
Proof. induction a as [|c a IH]; simpl; [reflexivity|]. rewrite IH. reflexivity. Qed.

Lemma percent_decode_encode_byte c rest :
  percent_decode (plus_to_space (encode_byte c) +:+ rest)
  = String c (percent_decode rest).
Proof. each_byte c; reflexivity. Qed.

Lemma decode_encode s : decode (encode s) = s.
Proof.
  unfold decode. induction s as [|c s IH]; simpl; [reflexivity|].
  rewrite plus_to_space_app, percent_decode_encode_byte, IH. reflexivity.
Qed.

(** Cutting and splitting at a separator that the left part lacks. *)
Lemma cut_at_app sep a b :
  free_of sep a = true -> cut_at sep (a +:+ String sep b) = (a, b).
Proof.
  unfold free_of. induction a as [|c a IH]; simpl.
  - intros _. rewrite Ascii.eqb_refl. reflexivity.
  - intros [Hc Ha]%andb_prop. apply negb_true_iff in Hc. rewrite Hc, (IH Ha).
    reflexivity.
Qed.


Lemma split_on_free sep a : free_of sep a = true -> split_on sep a = [a].
Proof.
  unfold free_of. induction a as [|c a IH]; simpl; [reflexivity|].
  intros [Hc Ha]%andb_prop. apply negb_true_iff in Hc. rewrite Hc, (IH Ha).
  reflexivity.
Qed.

Lemma split_on_app sep a b :
  free_of sep a = true -> split_on sep (a +:+ String sep b) = a :: split_on sep b.
Proof.
  unfold free_of. induction a as [|c a IH]; simpl.
  - intros _. rewrite Ascii.eqb_refl. reflexivity.
  - intros [Hc Ha]%andb_prop. apply negb_true_iff in Hc. rewrite Hc, (IH Ha).
    reflexivity.
Qed.

Lemma encode_pair_free_of_amp kv : free_of "&" (encode_pair kv) = true.
Proof.
  unfold encode_pair, free_of.
  rewrite !all_chars_app. fold (free_of "&" (encode (fst kv))).
  fold (free_of "&" (encode (snd kv))).
  rewrite !encode_free_of_amp. reflexivity.
Qed.


Lemma encode_pair_nonempty kv : nonempty (encode_pair kv) = true.
Proof. unfold encode_pair. destruct (encode (fst kv)); reflexivity. Qed.

Lemma parse_pair_encode_pair kv : parse_pair (encode_pair kv) = kv.
Proof.
  destruct kv as [k v]. unfold parse_pair, encode_pair. simpl fst; simpl snd.
  change ("=" +:+ encode v) with (String "=" (encode v)).
  rewrite (cut_at_app "=" _ _ (encode_free_of_eq k)), !decode_encode. reflexivity.
Qed.

Lemma parse_toString_cons kv params :
  parse (toString (kv :: params)) = kv :: params.
Proof.
  revert kv. induction params as [|kv' params IH]; intros kv.
  - unfold parse, toString. simpl JS.join.
    rewrite (split_on_free "&" _ (encode_pair_free_of_amp kv)). simpl.
    rewrite encode_pair_nonempty. simpl. rewrite parse_pair_encode_pair. reflexivity.
  - specialize (IH kv'). unfold parse, toString in *.
    change (JS.join "&" (map encode_pair (kv :: kv' :: params)))
      with (encode_pair kv +:+ String "&" (JS.join "&" (map encode_pair (kv' :: params)))).
    rewrite (split_on_app "&" _ _ (encode_pair_free_of_amp kv)). simpl List.filter.
    rewrite encode_pair_nonempty. simpl map at 1. rewrite parse_pair_encode_pair.
    f_equal. exact IH.
Qed.

(** Parsing the serialization gives back the parameter list, in order. *)
Lemma parse_toString params : parse (toString params) = params.
Proof. destruct params; [reflexivity | apply parse_toString_cons]. Qed.



End QueryFacts.


(** ** The executor, step by step *)

(** One call of [request] is one outbound call; a resolved response gives
    its body, everything else goes through the [catch] clause. *)
Lemma request_run net method endpoint options w :
  request net method endpoint options w =
  let config := requestOptions (this w) method endpoint options in
  let w' := {| this := this w; outbound := (outbound w ++ [config])%list |} in
  match net config with
  | HttpResponse status body =>
      if validateStatus status then (Normal body, w')
      else (request_catch
              (JObj [("message",
                      JStr ("Request failed with status code "
                            +:+ JS.to_string (JNum status)));
                     ("response", JObj [("data", body); ("status", JNum status)])]),
            w')
  | NoResponse => (request_catch (JObj [("message", JStr "Network Error")]), w')
  end.
Proof.
  unfold request, bind, read_this, try_catch, axios_request, lift.
  cbv zeta. cbn [this outbound].
  destruct (net _) as [|status body]; [reflexivity|].
  destruct (validateStatus status); reflexivity.
Qed.

Lemma request_outbound net method endpoint options w :
  snd (request net method endpoint options w) =
  {| this := this w;
     outbound := (outbound w ++ [requestOptions (this w) method endpoint options])%list |}.
Proof.
  rewrite request_run. cbv zeta.
  destruct (net _) as [|status body]; [reflexivity|].
  destruct (validateStatus status); reflexivity.
Qed.

(** The two method-dependent assignments of [request] repeat what the
    spread of [options] already copied. *)
Lemma requestOptions_fields self method endpoint options :
  requestOptions self method endpoint options =
  {| method := method;
     url := baseURL +:+ endpoint;
     headers := <["Authorization" := "Bearer " +:+ nullable_to_string (accessToken self)]>
                  (default ∅ (opt_headers options));
     params := opt_params options;
     data := opt_data options |}.
Proof.
  unfold requestOptions. cbv zeta.
  destruct (String.eqb method "GET" && JS.truthy (opt_params options)); [reflexivity|].
  destruct (existsb (String.eqb method) ["PUT"; "POST"; "PATCH"]); reflexivity.
Qed.

Ltac run_catch :=
  unfold request_catch, error_response_status, error_response_data, JS.opt_chain;
  cbn [JS.get JS.assoc cbind default from_option id String.eqb Ascii.eqb Bool.eqb].

Lemma errorMessages_401 :
  errorMessages (JNum 401) = Some "Access token must be valid.".
Proof. reflexivity. Qed.

Lemma errorMessages_500 :
  errorMessages (JNum 500) = Some "Discord API Server Error".
Proof. reflexivity. Qed.

Lemma has_field_false_falsy body :
  JS.has_field body "message" = false ->
  JS.truthy (JS.field body "message") = false.
Proof.
  destruct body as [| | b | n | sig dec | s | items | fields]; try reflexivity.
  unfold JS.has_field, JS.field.
  destruct (JS.assoc "message" fields); [discriminate | reflexivity].
Qed.

(** ** Failures with a response *)

(** C2 (as amended): a 401 response whose body has a truthy [message]
    raises an [InvalidAccessTokenError]; its message is the text of the
    status table and its context is [JSON.stringify] of the whole body, the
    only place where the upstream message travels. *)
Theorem request_401_with_message net w method endpoint options body :
  net (requestOptions (this w) method endpoint options) = HttpResponse 401 body ->
  JS.truthy (JS.field body "message") = true ->
  exists context,
    JS.JSON_stringify body = Some context /\
    request net method endpoint options w =
    (Throw (ErrorInstance InvalidAccessTokenError "Access token must be valid."
              (Some context)),
     {| this := this w;
        outbound := (outbound w ++ [requestOptions (this w) method endpoint options])%list |}).
Proof.
  intros Hnet Hmsg. rewrite request_run. cbv zeta. rewrite Hnet.
  change (validateStatus 401) with false. cbv iota.
  destruct body as [| | b | n | sig dec | s | items | fields]; try discriminate Hmsg.
  eexists. split; [reflexivity|].
  run_catch. rewrite errorMessages_401. cbn [cbind JS.truthy].
  simpl JS.field in Hmsg. rewrite Hmsg. reflexivity.
Qed.

Lemma request_401_with_message_witness :
  let body := JObj [("message", JStr "invalid token"); ("code", JNum 0)] in
  let serialized :=
    "{" +:+ DQ +:+ "message" +:+ DQ +:+ ":" +:+ DQ +:+ "invalid token" +:+ DQ
    +:+ "," +:+ DQ +:+ "code" +:+ DQ +:+ ":0}" in
  always (HttpResponse 401 body)
    (requestOptions (this sample_world) "GET" "/users/@me" no_options)
  = HttpResponse 401 body /\
  JS.truthy (JS.field body "message") = true /\
  request (always (HttpResponse 401 body)) "GET" "/users/@me" no_options sample_world =
  (Throw (ErrorInstance InvalidAccessTokenError "Access token must be valid."
            (Some serialized)),
   {| this := this sample_world;
      outbound := (outbound sample_world
                   ++ [requestOptions (this sample_world) "GET" "/users/@me" no_options])%list |}).
Proof.
  intros body serialized. split; [reflexivity|]. split; [reflexivity|].
  destruct (request_401_with_message (always (HttpResponse 401 body)) sample_world
              "GET" "/users/@me" no_options body eq_refl eq_refl)
    as (context & Hcontext & Hrun).
  rewrite Hrun. vm_compute in Hcontext. injection Hcontext as <-. reflexivity.
Defined.

(** C2 as stated fails.  A body whose [message] field is the empty string
    contains a message field, yet the error raised for it is a plain [Error]
    without context; and with the body [{message: "invalid token"}] the
    message of the raised instance is the text of the status table, not the
    upstream message. *)
Lemma request_401_message_counterexample :
  (let body := JObj [("message", JStr "")] in
   JS.has_field body "message" = true /\
   fst (request (always (HttpResponse 401 body)) "GET" "/users/@me" no_options sample_world)
   = Throw (ErrorInstance Error "Access token must be valid." None) /\
   ~ (exists message context,
        fst (request (always (HttpResponse 401 body)) "GET" "/users/@me" no_options
               sample_world)
        = Throw (ErrorInstance InvalidAccessTokenError message context))) /\
  (let body := JObj [("message", JStr "invalid token")] in
   JS.has_field body "message" = true /\
   JS.field body "message" = JStr "invalid token" /\
   exists context,
     fst (request (always (HttpResponse 401 body)) "GET" "/users/@me" no_options sample_world)
     = Throw (ErrorInstance InvalidAccessTokenError "Access token must be valid." context)
     /\ "Access token must be valid." <> "invalid token").
Proof.
  split.
  - intros body. split; [reflexivity|]. split; [reflexivity|].
    intros (message & context & H). vm_compute in H. discriminate H.
  - intros body. split; [reflexivity|]. split; [reflexivity|].
    exists (JS.JSON_stringify body). split; [vm_compute; reflexivity | discriminate].
Qed.

(** C3 (as amended): a 500 response whose body has no [message] field
    raises a plain [Error], not a [DiscordAPIError]; it carries the message
    of the status table and no context. *)
Theorem request_500_without_message net w method endpoint options body :
  net (requestOptions (this w) method endpoint options) = HttpResponse 500 body ->
  JS.has_field body "message" = false ->
  request net method endpoint options w =
  (Throw (ErrorInstance Error "Discord API Server Error" None),
   {| this := this w;
      outbound := (outbound w ++ [requestOptions (this w) method endpoint options])%list |}).
Proof.
  intros Hnet Hmsg%has_field_false_falsy. rewrite request_run. cbv zeta. rewrite Hnet.
  change (validateStatus 500) with false. cbv iota.
  run_catch. rewrite errorMessages_500. cbn [cbind].
  destruct body as [| | b | n | sig dec | s | items | fields]; try reflexivity.
  - destruct b; reflexivity.
  - destruct (JS.truthy (JNum n)); reflexivity.
  - destruct (JS.truthy (JDec sig dec)); reflexivity.
  - destruct (JS.truthy (JStr s)); reflexivity.
  - cbn [JS.truthy JS.get cbind]. simpl JS.field in Hmsg. rewrite Hmsg. reflexivity.
Qed.

Lemma request_500_without_message_witness :
  let body := JObj [("code", JNum 0)] in
  always (HttpResponse 500 body)
    (requestOptions (this sample_world) "GET" "/users/@me/guilds" no_options)
  = HttpResponse 500 body /\
  JS.has_field body "message" = false /\
  request (always (HttpResponse 500 body)) "GET" "/users/@me/guilds" no_options sample_world =
  (Throw (ErrorInstance Error "Discord API Server Error" None),
   {| this := this sample_world;
      outbound := (outbound sample_world
                   ++ [requestOptions (this sample_world) "GET" "/users/@me/guilds"
                         no_options])%list |}).
Proof.
  intros body. split; [reflexivity|]. split; [reflexivity|].
  apply (request_500_without_message (always (HttpResponse 500 body)) sample_world
           "GET" "/users/@me/guilds" no_options body); reflexivity.
Defined.

(** C3 as stated fails: for a 500 response with the body [{}] the raised
    error is of the plain class [Error], not of the class [DiscordAPIError]
    that stands for the upstream-server-error kind. *)
Lemma request_500_kind_counterexample :
  let body := JObj [] in
  JS.has_field body "message" = false /\
  fst (request (always (HttpResponse 500 body)) "GET" "/users/@me" no_options sample_world)
  = Throw (ErrorInstance Error "Discord API Server Error" None) /\
  ~ (exists message context,
       fst (request (always (HttpResponse 500 body)) "GET" "/users/@me" no_options
              sample_world)
       = Throw (ErrorInstance DiscordAPIError message context)).
Proof.
  intros body. split; [reflexivity|]. split; [reflexivity|].
  intros (message & context & H). vm_compute in H. discriminate H.
Qed.

(** ** Failures without a response *)

(** C4: when nothing came back, the rejection value has no [response], so
    the first statement of the [catch] clause, which reads
    [error?.response.status], throws the [TypeError] of the engine; the
    caller receives that one and no error built from the status table. *)
Theorem request_network_failure net w method endpoint options :
  net (requestOptions (this w) method endpoint options) = NoResponse ->
  request net method endpoint options w =
  (Throw (ErrorInstance TypeError
            "Cannot read properties of undefined (reading 'status')" None),
   {| this := this w;
      outbound := (outbound w ++ [requestOptions (this w) method endpoint options])%list |}).
Proof.
  intros Hnet. rewrite request_run. cbv zeta. rewrite Hnet. reflexivity.
Qed.

Lemma request_network_failure_witness :
  always NoResponse (requestOptions (this sample_world) "GET" "/users/@me" no_options)
  = NoResponse /\
  request (always NoResponse) "GET" "/users/@me" no_options sample_world =
  (Throw (ErrorInstance TypeError
            "Cannot read properties of undefined (reading 'status')" None),
   {| this := this sample_world;
      outbound := (outbound sample_world
                   ++ [requestOptions (this sample_world) "GET" "/users/@me" no_options])%list |}).
Proof.
  split; [reflexivity|].
  apply (request_network_failure (always NoResponse) sample_world
           "GET" "/users/@me" no_options); reflexivity.
Defined.

(** The [catch] clause copes with a rejection value that is itself
    [undefined]: only then does the optional link of the chain apply. *)
Lemma request_catch_undefined :
  request_catch JUndefined
  = Throw (ErrorInstance Error "Status undefined is not handled yet." None).
Proof. reflexivity. Qed.

(** ** Success *)

(** C8 (as amended): a response with a status from 200 to 299 resolves, and
    [request] returns its decoded body. *)
Theorem request_2xx_returns_body net w method endpoint options status body :
  net (requestOptions (this w) method endpoint options) = HttpResponse status body ->
  200 <= status < 300 ->
  request net method endpoint options w =
  (Normal body,
   {| this := this w;
      outbound := (outbound w ++ [requestOptions (this w) method endpoint options])%list |}).
Proof.
  intros Hnet Hstatus. rewrite request_run. cbv zeta. rewrite Hnet.
  assert (validateStatus status = true) as ->; [|reflexivity].
  unfold validateStatus. apply andb_true_intro. split; [apply Z.leb_le | apply Z.ltb_lt]; lia.
Qed.

Lemma request_2xx_returns_body_witness :
  let body := JObj [("id", JStr "80351110224678912"); ("username", JStr "nelly")] in
  always (HttpResponse 204 body)
    (requestOptions (this sample_world) "GET" "/users/@me" no_options)
  = HttpResponse 204 body /\
  200 <= 204 < 300 /\
  request (always (HttpResponse 204 body)) "GET" "/users/@me" no_options sample_world =
  (Normal body,
   {| this := this sample_world;
      outbound := (outbound sample_world
                   ++ [requestOptions (this sample_world) "GET" "/users/@me" no_options])%list |}).
Proof.
  intros body. split; [reflexivity|]. split; [lia|].
  apply (request_2xx_returns_body (always (HttpResponse 204 body)) sample_world
           "GET" "/users/@me" no_options 204 body); [reflexivity | lia].
Defined.

(** C8 as stated fails at status 300: the transport rejects a response
    outside 200..299, and [request] raises the error of its status table
    instead of returning the body. *)
Lemma request_300_counterexample :
  let body := JObj [("id", JStr "80351110224678912")] in
  fst (request (always (HttpResponse 300 body)) "GET" "/users/@me" no_options sample_world)
  = Throw (ErrorInstance Error "Multiple Choices" None) /\
  fst (request (always (HttpResponse 300 body)) "GET" "/users/@me" no_options sample_world)
  <> Normal body.
Proof. intros body. split; [reflexivity | vm_compute; discriminate]. Qed.

(** The earlier revision behaves the same way at status 300, where the
    rejection of the transport pre-empts its own status test; of the
    statuses that resolve it lets only 200 through and returns the whole
    response. *)
Lemma legacy_request_statuses :
  let body := JObj [("id", JStr "80351110224678912")] in
  fst (Legacy.request (always (HttpResponse 300 body)) "GET" "/users/@me" no_options
         sample_world)
  = Throw (ErrorInstance Error "Request failed with status code 300" None) /\
  fst (Legacy.request (always (HttpResponse 201 body)) "GET" "/users/@me" no_options
         sample_world)
  = Throw (ErrorInstance Error "Status 201 is not handled yet." None) /\
  fst (Legacy.request (always (HttpResponse 200 body)) "GET" "/users/@me" no_options
         sample_world)
  = Normal (JObj [("data", body); ("status", JNum 200)]).
Proof. intros body. repeat split; reflexivity. Qed.

(** ** The Authorization header *)

(** C9: [request] makes exactly one outbound call; its [Authorization]
    header is [Bearer] followed by the access token of the instance (by
    [null] when that is null), whatever the caller passed under that name,
    and every other header is the caller's. *)
Theorem request_injects_bearer net w method endpoint (options : RequestOptions) :
  exists config : AxiosRequestConfig,
    snd (request net method endpoint options w) =
      {| this := this w; outbound := (outbound w ++ [config])%list |} /\
    headers config !! "Authorization" =
      Some (match accessToken (this w) with
            | Some token => "Bearer " +:+ token
            | None => "Bearer null"
            end) /\
    forall name : string,
      name <> "Authorization" ->
      headers config !! name =
      match opt_headers options with
      | Some caller => caller !! name
      | None => None
      end.
Proof.
  exists (requestOptions (this w) method endpoint options).
  split; [apply request_outbound|].
  rewrite requestOptions_fields. cbn [headers]. split.
  - rewrite lookup_insert_eq. destruct (accessToken (this w)); reflexivity.
  - intros name Hname. rewrite lookup_insert_ne by congruence.
    destruct (opt_headers options); [reflexivity | apply lookup_empty].
Qed.

(** A caller that passes its own [Authorization] next to another header:
    the other header goes out, the caller's [Authorization] does not. *)
Lemma request_overrides_caller_authorization :
  let options := {| opt_headers := Some (<["Authorization" := "Basic dXNlcjpwYXNz"]>
                                           {[ "X-Audit-Log-Reason" := "cleanup" ]});
                    opt_params := JUndefined;
                    opt_data := JUndefined |} in
  let sent := requestOptions sample_self "GET" "/users/@me" options in
  outbound (snd (request (always NoResponse) "GET" "/users/@me" options sample_world))
  = [sent] /\
  headers sent !! "Authorization" = Some "Bearer user-token" /\
  headers sent !! "X-Audit-Log-Reason" = Some "cleanup".
Proof. intros options sent. repeat split; reflexivity. Qed.

(** C10: [getApplication] makes exactly one outbound call, and that call
    is known in full: a GET to /oauth2/applications/@me whose only header
    is [Authorization], holding [Bearer] followed by the access token (by
    [null] when that is null), with neither [params] nor [data].  The
    [Bot <clientToken>] value the method passes is overwritten: no part of
    the call holds the bot token, and the header is no [Bot] header. *)
Theorem getApplication_sends_bearer net w :
  exists config : AxiosRequestConfig,
    snd (getApplication net w) =
      {| this := this w; outbound := (outbound w ++ [config])%list |} /\
    config =
      {| method := "GET";
         url := "https://discord.com/api/v10/oauth2/applications/@me";
         headers := {[ "Authorization" :=
                         match accessToken (this w) with
                         | Some token => "Bearer " +:+ token
                         | None => "Bearer null"
                         end ]};
         params := JUndefined;
         data := JUndefined |} /\
    forall bot : string, headers config !! "Authorization" <> Some ("Bot " +:+ bot).
Proof.
  set (options := {| opt_headers :=
                       Some {[ "Authorization" :=
                                 "Bot " +:+ nullable_to_string (clientToken (this w)) ]};
                     opt_params := JUndefined; opt_data := JUndefined |}).
  exists (requestOptions (this w) "GET" "/oauth2/applications/@me" options).
  split.
  - unfold getApplication, bind, read_this. fold options.
    pose proof (request_outbound net "GET" "/oauth2/applications/@me" options w) as Hout.
    destruct (request net "GET" "/oauth2/applications/@me" options w) as [[response|e] w'];
      simpl in Hout; subst w'; reflexivity.
  - rewrite requestOptions_fields.
    cbn [url headers options opt_headers opt_params opt_data default from_option id].
    rewrite insert_singleton_eq. split.
    + destruct (accessToken (this w)); reflexivity.
    + intros bot. cbn [headers]. rewrite lookup_singleton_eq.
      destruct (accessToken (this w)); intros [= H].
Qed.

(** With the sample instance: the header that leaves is the bearer one,
    and the bot token occurs nowhere in the request. *)
Lemma getApplication_sample :
  outbound (snd (getApplication (always NoResponse) sample_world)) =
  [ {| method := "GET";
       url := "https://discord.com/api/v10/oauth2/applications/@me";
       headers := {[ "Authorization" := "Bearer user-token" ]};
       params := JUndefined;
       data := JUndefined |} ].
Proof. reflexivity. Qed.

(** ** Revocation *)

(** C5: with [accessToken] or [refreshToken] null, [revokeToken] throws its
    precondition error and leaves the world as it was: no outbound call,
    both token fields unchanged. *)
Theorem revokeToken_requires_both_tokens net w :
  accessToken (this w) = None \/ refreshToken (this w) = None ->
  revokeToken net w =
  (Throw (ErrorInstance Error
            "Access token and refresh token are required to revoke the token." None),
   w).
Proof.
  intros Hnull. unfold revokeToken, bind, read_this.
  assert (negb (nullable_truthy (accessToken (this w)))
          || negb (nullable_truthy (refreshToken (this w))) = true) as ->; [|reflexivity].
  destruct Hnull as [-> | ->]; [reflexivity|].
  apply orb_true_r.
Qed.

Lemma revokeToken_requires_both_tokens_witness :
  (accessToken (this access_only_world) = None
   \/ refreshToken (this access_only_world) = None) /\
  revokeToken (always (HttpResponse 200 (JObj []))) access_only_world =
  (Throw (ErrorInstance Error
            "Access token and refresh token are required to revoke the token." None),
   access_only_world).
Proof.
  split; [right; reflexivity|].
  apply (revokeToken_requires_both_tokens (always (HttpResponse 200 (JObj [])))
           access_only_world).
  right; reflexivity.
Defined.

(** C6: from a state with both tokens set, a [revokeToken] call that makes
    its outbound request and gets a response the transport accepts returns
    normally and leaves both token fields null. *)
Theorem revokeToken_clears_tokens net w access refresh result w' :
  accessToken (this w) = Some access ->
  refreshToken (this w) = Some refresh ->
  revokeToken net w = (result, w') ->
  (exists config status body,
     outbound w' = (outbound w ++ [config])%list /\
     net config = HttpResponse status body /\
     validateStatus status = true) ->
  result = Normal tt /\
  accessToken (this w') = None /\ refreshToken (this w') = None.
Proof.
  intros Haccess Hrefresh Hrun (config & status & body & Hout & Hnet & Hok).
  unfold revokeToken, bind, read_this in Hrun.
  destruct (negb (nullable_truthy (accessToken (this w)))
            || negb (nullable_truthy (refreshToken (this w)))).
  - (* the precondition error: no call was made *)
    injection Hrun as _ <-. apply (f_equal length) in Hout.
    rewrite length_app in Hout. simpl in Hout. lia.
  - unfold axios_post, axios_request, write_this in Hrun. cbv zeta in Hrun.
    cbn [this outbound] in Hrun.
    match type of Hrun with
    | context [net ?c] => set (sent := c) in *
    end.
    assert (config = sent) as ->.
    { destruct (net sent) as [|status' body'];
        [|destruct (validateStatus status')];
        injection Hrun as _ <-; cbn [outbound] in Hout;
        apply app_inv_head in Hout; congruence. }
    rewrite Hnet, Hok in Hrun. injection Hrun as <- <-. repeat split.
Qed.

Lemma revokeToken_clears_tokens_witness :
  let net := always (HttpResponse 200 (JObj [])) in
  accessToken (this sample_world) = Some "user-token" /\
  refreshToken (this sample_world) = Some "refresh-token" /\
  (exists config status body,
     outbound (snd (revokeToken net sample_world))
       = (outbound sample_world ++ [config])%list /\
     net config = HttpResponse status body /\
     validateStatus status = true) /\
  fst (revokeToken net sample_world) = Normal tt /\
  accessToken (this (snd (revokeToken net sample_world))) = None /\
  refreshToken (this (snd (revokeToken net sample_world))) = None.
Proof.
  intros net.
  assert (exists config status body,
     outbound (snd (revokeToken net sample_world))
       = (outbound sample_world ++ [config])%list /\
     net config = HttpResponse status body /\
     validateStatus status = true) as Hcall.
  { eexists _, 200, (JObj []). repeat split; reflexivity. }
  split; [reflexivity|]. split; [reflexivity|]. split; [exact Hcall|].
  apply (revokeToken_clears_tokens net sample_world "user-token" "refresh-token"
           (fst (revokeToken net sample_world)) (snd (revokeToken net sample_world)));
    [reflexivity | reflexivity | apply surjective_pairing | exact Hcall].
Defined.

(** A non-null but empty token also fails the test [!this.accessToken]:
    no request leaves, and the tokens stay. *)
Lemma revokeToken_empty_token net w :
  accessToken (this w) = Some "" ->
  revokeToken net w =
  (Throw (ErrorInstance Error
            "Access token and refresh token are required to revoke the token." None),
   w).
Proof.
  intros Hempty. unfold revokeToken, bind, read_this. rewrite Hempty. reflexivity.
Qed.

(** ** Token exchange *)

(** C1: [request] hands back the body of the response, and
    [exchangeCodeForTokens] reads [response?.data.access_token] from it.
    For a body that holds [access_token] and [refresh_token] at its top level
    and has no [data] property, the read of [access_token] is a read on
    [undefined]: the exchange throws the [TypeError] of the engine although
    the token request succeeded, and no token reaches the caller. *)
Theorem exchangeCodeForTokens_flat_body net getType w code status fields :
  getType code = "string" ->
  (forall config, net config = HttpResponse status (JObj fields)) ->
  validateStatus status = true ->
  JS.assoc "data" fields = None ->
  fst (exchangeCodeForTokens net getType code w) =
  Throw (ErrorInstance TypeError
           "Cannot read properties of undefined (reading 'access_token')" None).
Proof.
  intros Htype Hnet Hok Hdata.
  unfold exchangeCodeForTokens. rewrite Htype. cbn [String.eqb Ascii.eqb Bool.eqb negb].
  unfold bind at 1. unfold read_this. unfold bind at 1.
  rewrite request_run. cbv zeta. rewrite Hnet, Hok.
  unfold bind, lift, JS.opt_chain. cbn [JS.get cbind]. rewrite Hdata. reflexivity.
Qed.

Lemma exchangeCodeForTokens_flat_body_witness :
  let fields := [("access_token", JStr "6qrZcUqja7812RVdnEKjpzOL4CvHBFG");
                 ("token_type", JStr "Bearer");
                 ("expires_in", JNum 604800);
                 ("refresh_token", JStr "D43f5y0ahjqew82jZ4NViEr2YafMKhue");
                 ("scope", JStr "identify")] in
  let net := always (HttpResponse 200 (JObj fields)) in
  JS.typeof (JStr "NhhvTDYsFcdgNLnnLijcl7Ku7bEEeee") = "string" /\
  (forall config, net config = HttpResponse 200 (JObj fields)) /\
  validateStatus 200 = true /\
  JS.assoc "data" fields = None /\
  fst (exchangeCodeForTokens net JS.typeof (JStr "NhhvTDYsFcdgNLnnLijcl7Ku7bEEeee")
         sample_world) =
  Throw (ErrorInstance TypeError
           "Cannot read properties of undefined (reading 'access_token')" None).
Proof.
  intros fields net. split; [reflexivity|]. split; [intros config; reflexivity|].
  split; [reflexivity|]. split; [reflexivity|].
  apply (exchangeCodeForTokens_flat_body net JS.typeof sample_world
           (JStr "NhhvTDYsFcdgNLnnLijcl7Ku7bEEeee") 200 fields);
    [reflexivity | intros config; reflexivity | reflexivity | reflexivity].
Defined.

(** When the exchange does return, its tokens are the ones found under the
    [data] property of the body, not the ones at its top level. *)
Lemma exchangeCodeForTokens_reads_nested net getType w code status fields nested :
  getType code = "string" ->
  (forall config, net config = HttpResponse status (JObj fields)) ->
  validateStatus status = true ->
  JS.assoc "data" fields = Some (JObj nested) ->
  fst (exchangeCodeForTokens net getType code w) =
  Normal {| pair_accessToken := JS.field (JObj nested) "access_token";
            pair_refreshToken := JS.field (JObj nested) "refresh_token" |}.
Proof.
  intros Htype Hnet Hok Hdata.
  unfold exchangeCodeForTokens. rewrite Htype. cbn [String.eqb Ascii.eqb Bool.eqb negb].
  unfold bind at 1. unfold read_this. unfold bind at 1.
  rewrite request_run. cbv zeta. rewrite Hnet, Hok.
  unfold bind, lift, ret, JS.opt_chain. cbn [JS.get cbind]. rewrite Hdata. reflexivity.
Qed.

Lemma exchangeCodeForTokens_top_level_ignored :
  let body := JObj [("access_token", JStr "A"); ("refresh_token", JStr "R");
                    ("data", JObj [("access_token", JStr "B")])] in
  fst (exchangeCodeForTokens (always (HttpResponse 200 body)) JS.typeof (JStr "c0de")
         sample_world)
  = Normal {| pair_accessToken := JStr "B"; pair_refreshToken := JUndefined |}.
Proof. reflexivity. Qed.

(** X8: a code that [getType] does not call a string is refused with a
    [TypeError] that names the answer of [getType], before any request is
    made. *)
Lemma exchangeCodeForTokens_validates net getType w code :
  getType code <> "string" ->
  exchangeCodeForTokens net getType code w =
  (Throw (ErrorInstance TypeError
            ("Expected type of code to exchange to be 'string' but got "
             +:+ getType code) None), w).
Proof.
  intros Htype. unfold exchangeCodeForTokens.
  destruct (String.eqb_spec (getType code) "string") as [Heq | _]; [contradiction|].
  reflexivity.
Qed.

(** ** The authorization link *)




(** The link of the example, character by character. *)
Lemma generateOauth2Link_sample :
  generateOauth2Link JS.typeof sample_self ["identify"; "guilds"] (JStr "abc")
  = Normal ("https://discord.com/oauth2/authorize?client_id=112233445566778899"
            +:+ "&redirect_uri=https%3A%2F%2Fexample.org%2Fcallback"
            +:+ "&response_type=code&state=abc&scope=identify+guilds").
Proof. reflexivity. Qed.

(** An omitted state takes the default, and a state that [getType] does
    not call a string is refused. *)
Lemma generateOauth2Link_default_state getType self scopes :
  generateOauth2Link getType self scopes JUndefined
  = generateOauth2Link getType self scopes (JStr "1bac472").
Proof. reflexivity. Qed.

(** X9: a state that is given and that [getType] does not call a string
    makes [generateOauth2Link] throw a [TypeError] that names the answer of
    [getType]; no link is built. *)
Lemma generateOauth2Link_validates getType self scopes state :
  state <> JUndefined ->
  getType state <> "string" ->
  generateOauth2Link getType self scopes state =
  Throw (ErrorInstance TypeError
           ("Expected type of state to be a 'string' but got " +:+ getType state
            +:+ " instead.") None).
Proof.
  intros Hdefined Htype. unfold generateOauth2Link.
  destruct state; try contradiction;
    match goal with
    | |- context [String.eqb ?answer "string"] =>
        destruct (String.eqb_spec answer "string") as [Heq | _];
        [contradiction | reflexivity]
    end.
Qed.

(** * Further properties of the executor *)

(** An exception that is an error instance, as opposed to the raw value a
    promise rejected with. *)
Lemma get_throws_instance base prop e :
  JS.get base prop = Throw e -> exists cls message context, e = ErrorInstance cls message context.
Proof.
  destruct base; simpl; intros [= <-]; unfold JS.read_of_nullish; eauto.
Qed.

Lemma error_response_status_throws_instance error e :
  error_response_status error = Throw e ->
  exists cls message context, e = ErrorInstance cls message context.
Proof.
  unfold error_response_status, JS.opt_chain.
  destruct error; cbn [JS.get cbind]; try discriminate;
    first [ apply get_throws_instance
          | intros [= <-]; unfold JS.read_of_nullish; eauto ].
Qed.

Lemma error_response_data_throws_instance error e :
  error_response_data error = Throw e ->
  exists cls message context, e = ErrorInstance cls message context.
Proof.
  unfold error_response_data, JS.opt_chain.
  destruct error; cbn [JS.get cbind]; try discriminate;
    first [ apply get_throws_instance
          | intros [= <-]; unfold JS.read_of_nullish; eauto ].
Qed.

Lemma cbind_throws_instance {A B} (c : Completion A) (k : A -> Completion B) :
  (forall e, c = Throw e -> exists cls message context, e = ErrorInstance cls message context) ->
  (forall a, exists cls message context, k a = Throw (ErrorInstance cls message context)) ->
  exists cls message context, cbind c k = Throw (ErrorInstance cls message context).
Proof.
  intros Hc Hk. destruct c as [a | e]; simpl; [apply Hk|].
  destruct (Hc e eq_refl) as (cls & message & context & ->). eauto.
Qed.

(** Whatever value the [catch] clause of [request] is entered with, it
    leaves by throwing an error instance. *)
Lemma request_catch_throws_instance error :
  exists cls message context,
    request_catch error = Throw (ErrorInstance cls message context).
Proof.
  unfold request_catch.
  destruct (error_response_status error) as [status | e] eqn:Hs; cbn [cbind];
    [|destruct (error_response_status_throws_instance _ _ Hs) as (? & ? & ? & ->); eauto].
  destruct (error_response_data error) as [d | e] eqn:Hd;
    [|destruct (error_response_data_throws_instance _ _ Hd) as (? & ? & ? & ->);
      destruct (errorMessages status); cbn [cbind]; eauto].
  destruct (errorMessages status) as [text|]; cbn [cbind];
    (destruct (JS.truthy d); cbn [cbind]; [|eauto];
     destruct (JS.get d "message") as [m | e] eqn:Hm; cbn [cbind];
       [|destruct (get_throws_instance _ _ _ Hm) as (? & ? & ? & ->); eauto];
     destruct (JS.truthy m); [|eauto];
     repeat case_match; eauto).
Qed.

(** X1: every call of [request] leaves the instance as it was and makes
    exactly one outbound call, to the base URL followed by the endpoint,
    with the [params] and the [data] of the options as they came, whatever
    the method. *)
Theorem request_passes_options_through net w verb endpoint (options : RequestOptions) :
  exists config : AxiosRequestConfig,
    snd (request net verb endpoint options w) =
      {| this := this w; outbound := (outbound w ++ [config])%list |} /\
    method config = verb /\
    url config = "https://discord.com/api/v10" +:+ endpoint /\
    params config = opt_params options /\
    data config = opt_data options.
Proof.
  exists (requestOptions (this w) verb endpoint options).
  split; [apply request_outbound|].
  rewrite requestOptions_fields. repeat split.
Qed.

(** X2: [request] returns a value only when the response came with a status
    from 200 to 299, and the value is then the body of that response. *)
Theorem request_returns_only_on_2xx net w method endpoint options value :
  fst (request net method endpoint options w) = Normal value ->
  exists status,
    net (requestOptions (this w) method endpoint options) = HttpResponse status value /\
    200 <= status < 300.
Proof.
  rewrite request_run. cbv zeta.
  destruct (net _) as [|status body].
  - destruct (request_catch_throws_instance (JObj [("message", JStr "Network Error")]))
      as (cls & message & context & ->). discriminate.
  - destruct (validateStatus status) eqn:Hok.
    + simpl. intros [= ->]. exists status. split; [reflexivity|].
      unfold validateStatus in Hok. apply andb_prop in Hok as [Hlo Hhi].
      apply Z.leb_le in Hlo. apply Z.ltb_lt in Hhi. lia.
    + match goal with
      | |- context [request_catch ?error] =>
          destruct (request_catch_throws_instance error) as (cls & message & context & ->)
      end. discriminate.
Qed.

Lemma request_returns_only_on_2xx_witness :
  let body := JObj [("id", JStr "80351110224678912")] in
  fst (request (always (HttpResponse 201 body)) "GET" "/users/@me" no_options sample_world)
  = Normal body /\
  exists status,
    always (HttpResponse 201 body)
      (requestOptions (this sample_world) "GET" "/users/@me" no_options)
    = HttpResponse status body /\
    200 <= status < 300.
Proof.
  intros body. split; [reflexivity|].
  apply (request_returns_only_on_2xx (always (HttpResponse 201 body)) sample_world
           "GET" "/users/@me" no_options body).
  reflexivity.
Defined.

(** X3: what [request] throws is always an error instance; the value the
    transport rejected with never reaches the caller. *)
Theorem request_never_rethrows_rejection net w method endpoint options e :
  fst (request net method endpoint options w) = Throw e ->
  exists cls message context, e = ErrorInstance cls message context.
Proof.
  rewrite request_run. cbv zeta.
  destruct (net _) as [|status body];
    [|destruct (validateStatus status); [discriminate|]];
    match goal with
    | |- context [request_catch ?error] =>
        destruct (request_catch_throws_instance error) as (cls & message & context & ->)
    end; simpl; intros [= <-]; eauto.
Qed.

Lemma request_never_rethrows_rejection_witness :
  let e := ErrorInstance NotFoundError "Not found."
             (JS.JSON_stringify (JObj [("message", JStr "Unknown User")])) in
  fst (request (always (HttpResponse 404 (JObj [("message", JStr "Unknown User")])))
         "GET" "/users/@me" no_options sample_world) = Throw e /\
  exists cls message context, e = ErrorInstance cls message context.
Proof.
  intros e. split; [reflexivity|].
  apply (request_never_rethrows_rejection
           (always (HttpResponse 404 (JObj [("message", JStr "Unknown User")])))
           sample_world "GET" "/users/@me" no_options e).
  reflexivity.
Defined.

(** ** The status table and the switch together *)

Lemma message_truthy_body body :
  JS.truthy (JS.field body "message") = true ->
  exists fields, body = JObj fields /\
                 JS.truthy (default JUndefined (JS.assoc "message" fields)) = true.
Proof.
  destruct body as [| | b | n | sig dec | s | items | fields]; try discriminate. eauto.
Qed.

(** X4: for each of the statuses 401, 404, 400, 429, 500 and 403, a
    response whose body has a truthy [message] raises the class of that
    status, with the text of the status table as message and
    [JSON.stringify] of the body as context. *)
Theorem request_classified_status net w verb endpoint options status cls text body :
  In (status, (cls, text)) classified_statuses ->
  net (requestOptions (this w) verb endpoint options) = HttpResponse status body ->
  JS.truthy (JS.field body "message") = true ->
  request net verb endpoint options w =
  (Throw (ErrorInstance cls text (JS.JSON_stringify body)),
   {| this := this w;
      outbound := (outbound w ++ [requestOptions (this w) verb endpoint options])%list |}).
Proof.
  intros Hin Hnet (fields & -> & Hmsg)%message_truthy_body.
  rewrite request_run. cbv zeta. rewrite Hnet.
  unfold classified_statuses in Hin. simpl in Hin.
  repeat (destruct Hin as [[= <- <- <-] | Hin];
          [change (validateStatus _) with false; cbv iota;
           run_catch;
           match goal with
           | |- context [errorMessages ?s] =>
               let text := eval vm_compute in (errorMessages s) in
               change (errorMessages s) with text
           end;
           cbn [cbind JS.truthy]; rewrite Hmsg; reflexivity|]).
  contradiction.
Qed.

Lemma request_classified_status_witness :
  let body := JObj [("message", JStr "You are being rate limited.");
                    ("retry_after", JDec 6457 2); ("global", JBool false)] in
  let serialized :=
    "{" +:+ DQ +:+ "message" +:+ DQ +:+ ":" +:+ DQ +:+ "You are being rate limited." +:+ DQ
    +:+ "," +:+ DQ +:+ "retry_after" +:+ DQ +:+ ":64.57"
    +:+ "," +:+ DQ +:+ "global" +:+ DQ +:+ ":false}" in
  In (429, (RateLimitedError, "Request limit reached. Try again later."))
     classified_statuses /\
  always (HttpResponse 429 body)
    (requestOptions (this sample_world) "GET" "/users/@me/guilds" no_options)
  = HttpResponse 429 body /\
  JS.truthy (JS.field body "message") = true /\
  request (always (HttpResponse 429 body)) "GET" "/users/@me/guilds" no_options sample_world =
  (Throw (ErrorInstance RateLimitedError "Request limit reached. Try again later."
            (Some serialized)),
   {| this := this sample_world;
      outbound := (outbound sample_world
                   ++ [requestOptions (this sample_world) "GET" "/users/@me/guilds"
                         no_options])%list |}).
Proof.
  intros body serialized.
  assert (In (429, (RateLimitedError, "Request limit reached. Try again later."))
            classified_statuses) as Hin.
  { unfold classified_statuses. simpl. tauto. }
  split; [exact Hin|]. split; [reflexivity|]. split; [reflexivity|].
  rewrite (request_classified_status (always (HttpResponse 429 body)) sample_world
             "GET" "/users/@me/guilds" no_options 429 RateLimitedError
             "Request limit reached. Try again later." body Hin eq_refl eq_refl).
  assert (JS.JSON_stringify body = Some serialized) as -> by (vm_compute; reflexivity).
  reflexivity.
Defined.

(** X5: whatever the status of a rejected response, a body without a
    truthy [message] gives a plain [Error] without context; its message is
    the text of the status table, or "Status N is not handled yet." for a
    status the table lacks.  No classified error is raised without an
    upstream message. *)
Theorem request_without_message net w verb endpoint options status body :
  net (requestOptions (this w) verb endpoint options) = HttpResponse status body ->
  validateStatus status = false ->
  JS.truthy (JS.field body "message") = false ->
  request net verb endpoint options w =
  (Throw (ErrorInstance Error (status_text status) None),
   {| this := this w;
      outbound := (outbound w ++ [requestOptions (this w) verb endpoint options])%list |}).
Proof.
  intros Hnet Hrejected Hmsg. rewrite request_run. cbv zeta. rewrite Hnet, Hrejected.
  run_catch. unfold status_text.
  destruct (errorMessages (JNum status)) as [text|]; cbn [cbind JS.to_string];
    (destruct body as [| | b | n | sig dec | s | items | fields]; try reflexivity;
     [ destruct b; reflexivity
     | destruct (JS.truthy (JNum n)); reflexivity
     | destruct (JS.truthy (JDec sig dec)); reflexivity
     | destruct (JS.truthy (JStr s)); reflexivity
     | cbn [JS.truthy JS.get cbind]; simpl JS.field in Hmsg; rewrite Hmsg; reflexivity ]).
Qed.

Lemma request_without_message_witness :
  let body := JStr "Bad Gateway" in
  always (HttpResponse 502 body)
    (requestOptions (this sample_world) "GET" "/users/@me" no_options)
  = HttpResponse 502 body /\
  validateStatus 502 = false /\
  JS.truthy (JS.field body "message") = false /\
  request (always (HttpResponse 502 body)) "GET" "/users/@me" no_options sample_world =
  (Throw (ErrorInstance Error "Status 502 is not handled yet." None),
   {| this := this sample_world;
      outbound := (outbound sample_world
                   ++ [requestOptions (this sample_world) "GET" "/users/@me" no_options])%list |}).
Proof.
  intros body. split; [reflexivity|]. split; [reflexivity|]. split; [reflexivity|].
  apply (request_without_message (always (HttpResponse 502 body)) sample_world
           "GET" "/users/@me" no_options 502 body); reflexivity.
Defined.

(** X6: a rejected response whose status is none of the six of the switch
    and whose body has a truthy [message] gives a plain [Error] without
    context, whose message is the status text followed by
    " Response Data: " and [JSON.stringify] of the body. *)
Theorem request_unlisted_status_with_message net w verb endpoint options status body :
  net (requestOptions (this w) verb endpoint options) = HttpResponse status body ->
  validateStatus status = false ->
  ~ In status (map fst classified_statuses) ->
  JS.truthy (JS.field body "message") = true ->
  exists json,
    JS.JSON_stringify body = Some json /\
    request net verb endpoint options w =
    (Throw (ErrorInstance Error (status_text status +:+ " Response Data: " +:+ json) None),
     {| this := this w;
        outbound := (outbound w ++ [requestOptions (this w) verb endpoint options])%list |}).
Proof.
  intros Hnet Hrejected Hunlisted (fields & -> & Hmsg)%message_truthy_body.
  eexists. split; [reflexivity|].
  rewrite request_run. cbv zeta. rewrite Hnet, Hrejected.
  run_catch. unfold status_text.
  assert (forall (A : Type) (a1 a2 a3 a4 a5 a6 other : A),
            match status with
            | 401 => a1 | 404 => a2 | 400 => a3 | 429 => a4 | 500 => a5 | 403 => a6
            | _ => other
            end = other) as Hdefault.
  { intros A a1 a2 a3 a4 a5 a6 other.
    repeat case_match; try reflexivity; exfalso; apply Hunlisted; simpl; tauto. }
  destruct (errorMessages (JNum status)) as [text|]; cbn [cbind JS.to_string JS.truthy];
    rewrite Hmsg; cbn [cbind]; rewrite Hdefault; reflexivity.
Qed.

Lemma request_unlisted_status_with_message_witness :
  let body := JObj [("message", JStr "405: Method Not Allowed"); ("code", JNum 0)] in
  let serialized :=
    "{" +:+ DQ +:+ "message" +:+ DQ +:+ ":" +:+ DQ +:+ "405: Method Not Allowed" +:+ DQ
    +:+ "," +:+ DQ +:+ "code" +:+ DQ +:+ ":0}" in
  always (HttpResponse 405 body)
    (requestOptions (this sample_world) "GET" "/users/@me" no_options)
  = HttpResponse 405 body /\
  validateStatus 405 = false /\
  ~ In 405 (map fst classified_statuses) /\
  JS.truthy (JS.field body "message") = true /\
  request (always (HttpResponse 405 body)) "GET" "/users/@me" no_options sample_world =
  (Throw (ErrorInstance Error
            ("Status 405 is not handled yet. Response Data: " +:+ serialized) None),
   {| this := this sample_world;
      outbound := (outbound sample_world
                   ++ [requestOptions (this sample_world) "GET" "/users/@me" no_options])%list |}).
Proof.
  intros body serialized.
  assert (~ In 405 (map fst classified_statuses)) as Hunlisted.
  { simpl. intros [H | [H | [H | [H | [H | [H | []]]]]]]; discriminate H. }
  split; [reflexivity|]. split; [reflexivity|]. split; [exact Hunlisted|].
  split; [reflexivity|].
  destruct (request_unlisted_status_with_message (always (HttpResponse 405 body))
              sample_world "GET" "/users/@me" no_options 405 body
              eq_refl eq_refl Hunlisted eq_refl)
    as (json & Hjson & Hrun).
  rewrite Hrun. vm_compute in Hjson. injection Hjson as <-.
  vm_compute. reflexivity.
Defined.

(** ** What the token methods send and keep *)

(** A call site that only reads what [request] returned ends in the world
    [request] left. *)
Lemma bind_request_world {A} net verb endpoint options (k : JSValue -> Completion A) w :
  snd (bind (request net verb endpoint options) (fun response => lift (k response)) w)
  = {| this := this w;
       outbound := (outbound w ++ [requestOptions (this w) verb endpoint options])%list |}.
Proof.
  unfold bind, lift.
  pose proof (request_outbound net verb endpoint options w) as Hout.
  destruct (request net verb endpoint options w) as [[response | e] w'];
    simpl in Hout; subst w'; reflexivity.
Qed.

(** X7: an exchange whose code passes the type check makes exactly one
    outbound call and leaves the instance untouched (the tokens it obtains
    are not stored).  The call is a POST to /oauth2/token of the API base,
    form-encoded, whose body parses to exactly [client_id],
    [client_secret], [grant_type=authorization_code], the code and
    [redirect_uri]. *)
Theorem exchangeCodeForTokens_request net getType w code :
  getType code = "string" ->
  exists (config : AxiosRequestConfig) (form : string),
    snd (exchangeCodeForTokens net getType code w) =
      {| this := this w; outbound := (outbound w ++ [config])%list |} /\
    method config = "POST" /\
    url config = "https://discord.com/api/v10/oauth2/token" /\
    headers config !! "Content-Type" = Some "application/x-www-form-urlencoded" /\
    data config = JStr form /\
    QueryString.parse form =
      [ ("client_id", clientId (this w));
        ("client_secret", clientSecret (this w));
        ("grant_type", "authorization_code");
        ("code", JS.to_string code);
        ("redirect_uri", redirectUri (this w)) ].
Proof.
  intros Htype. unfold exchangeCodeForTokens. rewrite Htype.
  cbn [String.eqb Ascii.eqb Bool.eqb negb].
  unfold bind at 1. unfold read_this.
  match goal with
  | |- context [request net "POST" "/oauth2/token" ?o] => set (options := o)
  end.
  exists (requestOptions (this w) "POST" "/oauth2/token" options). eexists.
  split.
  - unfold bind, lift, ret.
    pose proof (request_outbound net "POST" "/oauth2/token" options w) as Hout.
    destruct (request net "POST" "/oauth2/token" options w) as [[response | e] w'];
      simpl in Hout; subst w'; [|reflexivity].
    destruct (JS.opt_chain response _) as [access | e]; [|reflexivity].
    destruct (JS.opt_chain response _) as [refresh | e]; reflexivity.
  - rewrite requestOptions_fields.
    cbn [method url headers data options opt_headers opt_data default from_option id].
    split; [reflexivity|]. split; [reflexivity|].
    split; [rewrite lookup_insert_ne by discriminate; apply lookup_singleton_eq|].
    split; [reflexivity|]. apply QueryFacts.parse_toString.
Qed.

Lemma exchangeCodeForTokens_request_witness :
  let net := always (HttpResponse 200 (JObj [])) in
  let code := JStr "NhhvTDYsFcdgNLnnLijcl7Ku7bEEeee" in
  JS.typeof code = "string" /\
  exists (config : AxiosRequestConfig) (form : string),
    snd (exchangeCodeForTokens net JS.typeof code sample_world) =
      {| this := this sample_world;
         outbound := (outbound sample_world ++ [config])%list |} /\
    method config = "POST" /\
    url config = "https://discord.com/api/v10/oauth2/token" /\
    headers config !! "Content-Type" = Some "application/x-www-form-urlencoded" /\
    data config = JStr form /\
    QueryString.parse form =
      [ ("client_id", clientId (this sample_world));
        ("client_secret", clientSecret (this sample_world));
        ("grant_type", "authorization_code");
        ("code", JS.to_string code);
        ("redirect_uri", redirectUri (this sample_world)) ].
Proof.
  intros net code. split; [reflexivity|].
  apply (exchangeCodeForTokens_request net JS.typeof sample_world code). reflexivity.
Defined.

Lemma exchangeCodeForTokens_validates_witness :
  JS.typeof (JNum 1234) <> "string" /\
  exchangeCodeForTokens (always NoResponse) JS.typeof (JNum 1234) sample_world =
  (Throw (ErrorInstance TypeError
            ("Expected type of code to exchange to be 'string' but got "
             +:+ JS.typeof (JNum 1234)) None), sample_world).
Proof.
  assert (JS.typeof (JNum 1234) <> "string") as Htype by discriminate.
  split; [exact Htype|].
  apply (exchangeCodeForTokens_validates (always NoResponse) JS.typeof sample_world
           (JNum 1234) Htype).
Defined.

Lemma generateOauth2Link_validates_witness :
  JNum 42 <> JUndefined /\
  JS.typeof (JNum 42) <> "string" /\
  generateOauth2Link JS.typeof sample_self ["identify"] (JNum 42) =
  Throw (ErrorInstance TypeError
           ("Expected type of state to be a 'string' but got " +:+ JS.typeof (JNum 42)
            +:+ " instead.") None).
Proof.
  assert (JNum 42 <> JUndefined) as Hdefined by discriminate.
  assert (JS.typeof (JNum 42) <> "string") as Htype by discriminate.
  split; [exact Hdefined|]. split; [exact Htype|].
  apply (generateOauth2Link_validates JS.typeof sample_self ["identify"] (JNum 42)
           Hdefined Htype).
Defined.

(** X10: with both tokens set and not empty, [revokeToken] makes exactly
    one outbound call: a POST to the revocation URL whose only header is
    the form content type (no [Authorization]) and whose body parses to
    exactly [client_id], [client_secret] and [token], the refresh token. *)
Theorem revokeToken_request net w access refresh :
  accessToken (this w) = Some access -> access <> "" ->
  refreshToken (this w) = Some refresh -> refresh <> "" ->
  exists (config : AxiosRequestConfig) (form : string),
    outbound (snd (revokeToken net w)) = (outbound w ++ [config])%list /\
    method config = "POST" /\
    url config = "https://discord.com/api/oauth2/token/revoke" /\
    headers config = {[ "Content-Type" := "application/x-www-form-urlencoded" ]} /\
    headers config !! "Authorization" = None /\
    data config = JStr form /\
    QueryString.parse form =
      [ ("client_id", clientId (this w));
        ("client_secret", clientSecret (this w));
        ("token", refresh) ].
Proof.
  intros Haccess Haccess' Hrefresh Hrefresh'.
  unfold revokeToken, bind, read_this. rewrite Haccess, Hrefresh.
  cbn [nullable_truthy JS.truthy nullable_to_string].
  apply String.eqb_neq in Haccess', Hrefresh'. rewrite Haccess', Hrefresh'.
  cbn [negb orb].
  unfold axios_post, axios_request, write_this. cbv zeta. cbn [this outbound].
  match goal with
  | |- context [net ?c] => set (sent := c)
  end.
  exists sent. eexists. split.
  - destruct (net sent) as [|status body]; [reflexivity|].
    destruct (validateStatus status); reflexivity.
  - subst sent. cbn [method url headers data].
    repeat (split; [reflexivity|]).
    unfold URLSearchParams.append. cbn [app]. apply QueryFacts.parse_toString.
Qed.

Lemma revokeToken_request_witness :
  let net := always (HttpResponse 200 (JObj [])) in
  accessToken (this sample_world) = Some "user-token" /\ "user-token" <> "" /\
  refreshToken (this sample_world) = Some "refresh-token" /\ "refresh-token" <> "" /\
  exists (config : AxiosRequestConfig) (form : string),
    outbound (snd (revokeToken net sample_world)) = (outbound sample_world ++ [config])%list /\
    method config = "POST" /\
    url config = "https://discord.com/api/oauth2/token/revoke" /\
    headers config = {[ "Content-Type" := "application/x-www-form-urlencoded" ]} /\
    headers config !! "Authorization" = None /\
    data config = JStr form /\
    QueryString.parse form =
      [ ("client_id", clientId (this sample_world));
        ("client_secret", clientSecret (this sample_world));
        ("token", "refresh-token") ].
Proof.
  intros net.
  assert ("user-token" <> "") as Ha by discriminate.
  assert ("refresh-token" <> "") as Hr by discriminate.
  split; [reflexivity|]. split; [exact Ha|]. split; [reflexivity|]. split; [exact Hr|].
  apply (revokeToken_request net sample_world "user-token" "refresh-token"
           eq_refl Ha eq_refl Hr).
Defined.



(** X12: a revocation that returned cannot be repeated: the next
    [revokeToken], whatever the network, throws the precondition error
    without making a call. *)
Theorem revokeToken_twice net net' w w' :
  revokeToken net w = (Normal tt, w') ->
  revokeToken net' w' =
  (Throw (ErrorInstance Error
            "Access token and refresh token are required to revoke the token." None),
   w').
Proof.
  unfold revokeToken at 1. unfold bind, read_this.
  destruct (negb (nullable_truthy (accessToken (this w)))
            || negb (nullable_truthy (refreshToken (this w)))); [discriminate|].
  unfold axios_post, axios_request, write_this. cbv zeta. cbn [this outbound].
  match goal with
  | |- context [net ?c] => destruct (net c) as [|status body]
  end; [discriminate|].
  destruct (validateStatus status); [|discriminate].
  intros [= <-]. reflexivity.
Qed.

Lemma revokeToken_twice_witness :
  let net := always (HttpResponse 200 (JObj [])) in
  let w' := snd (revokeToken net sample_world) in
  revokeToken net sample_world = (Normal tt, w') /\
  revokeToken (always NoResponse) w' =
  (Throw (ErrorInstance Error
            "Access token and refresh token are required to revoke the token." None),
   w').
Proof.
  intros net w'. split; [reflexivity|].
  apply (revokeToken_twice net (always NoResponse) sample_world w'). reflexivity.
Defined.

(** X13: setting two non-empty tokens on any instance and revoking them
    over a network that accepts the request returns normally, ends with
    both tokens null and keeps the credentials. *)
Theorem set_tokens_then_revoke net w access refresh status body :
  access <> "" -> refresh <> "" ->
  (forall config, net config = HttpResponse status body) ->
  validateStatus status = true ->
  let w1 := snd (setAccessToken access w) in
  let w2 := snd (setRevokeToken refresh w1) in
  fst (revokeToken net w2) = Normal tt /\
  accessToken (this (snd (revokeToken net w2))) = None /\
  refreshToken (this (snd (revokeToken net w2))) = None /\
  credentials (this (snd (revokeToken net w2))) = credentials (this w).
Proof.
  intros Haccess Hrefresh Hnet Hok w1 w2. subst w1 w2.
  unfold setAccessToken, setRevokeToken, write_this. cbn [snd this outbound].
  unfold revokeToken, bind, read_this.
  cbn [this accessToken refreshToken nullable_truthy JS.truthy nullable_to_string].
  apply String.eqb_neq in Haccess, Hrefresh. rewrite Haccess, Hrefresh.
  cbn [negb orb].
  unfold axios_post, axios_request, write_this. cbv zeta. cbn [this outbound].
  rewrite Hnet, Hok. repeat split.
Qed.

Lemma set_tokens_then_revoke_witness :
  let net := always (HttpResponse 200 (JObj [])) in
  let w := {| this := new_DiscordAuthorization "112233445566778899" "s3cret"
                        "https://example.org/callback" None;
              outbound := [] |} in
  "a-token" <> "" /\ "r-token" <> "" /\
  (forall config, net config = HttpResponse 200 (JObj [])) /\
  validateStatus 200 = true /\
  let w1 := snd (setAccessToken "a-token" w) in
  let w2 := snd (setRevokeToken "r-token" w1) in
  fst (revokeToken net w2) = Normal tt /\
  accessToken (this (snd (revokeToken net w2))) = None /\
  refreshToken (this (snd (revokeToken net w2))) = None /\
  credentials (this (snd (revokeToken net w2))) = credentials (this w).
Proof.
  intros net w.
  assert ("a-token" <> "") as Ha by discriminate.
  assert ("r-token" <> "") as Hr by discriminate.
  split; [exact Ha|]. split; [exact Hr|]. split; [intros config; reflexivity|].
  split; [reflexivity|].
  apply (set_tokens_then_revoke net w "a-token" "r-token" 200 (JObj []) Ha Hr
           (fun config => eq_refl) eq_refl).
Defined.

(** X14: after [setAccessToken(token)] every call of [request] carries
    [Bearer token]; the token is read at the time of the call. *)
Theorem setAccessToken_sets_bearer net w token verb endpoint (options : RequestOptions) :
  exists config : AxiosRequestConfig,
    outbound (snd (request net verb endpoint options (snd (setAccessToken token w))))
    = (outbound w ++ [config])%list /\
    headers config !! "Authorization" = Some ("Bearer " +:+ token).
Proof.
  rewrite request_outbound. unfold setAccessToken, write_this. cbn [snd this outbound].
  eexists. split; [reflexivity|].
  rewrite requestOptions_fields. cbn [headers accessToken nullable_to_string].
  apply lookup_insert_eq.
Qed.

(** X15: an instance on which no access token was set (as the constructor
    leaves it) still sends its requests, with the header
    [Authorization: Bearer null]. *)
Theorem request_without_token_sends_bearer_null net w verb endpoint (options : RequestOptions) :
  accessToken (this w) = None ->
  exists config : AxiosRequestConfig,
    outbound (snd (request net verb endpoint options w)) = (outbound w ++ [config])%list /\
    headers config !! "Authorization" = Some "Bearer null".
Proof.
  intros Hnull. rewrite request_outbound. cbn [outbound].
  eexists. split; [reflexivity|].
  rewrite requestOptions_fields, Hnull. cbn [headers nullable_to_string].
  apply lookup_insert_eq.
Qed.

Lemma request_without_token_sends_bearer_null_witness :
  let w := {| this := new_DiscordAuthorization "112233445566778899" "s3cret"
                        "https://example.org/callback" None;
              outbound := [] |} in
  accessToken (this w) = None /\
  exists config : AxiosRequestConfig,
    outbound (snd (request (always NoResponse) "GET" "/users/@me" no_options w))
    = (outbound w ++ [config])%list /\
    headers config !! "Authorization" = Some "Bearer null".
Proof.
  intros w. split; [reflexivity|].
  apply (request_without_token_sends_bearer_null (always NoResponse) w
           "GET" "/users/@me" no_options).
  reflexivity.
Defined.

(** ** The fetch methods *)

Lemma request_accepted net w verb endpoint options status body :
  (forall config, net config = HttpResponse status body) ->
  validateStatus status = true ->
  request net verb endpoint options w =
  (Normal body,
   {| this := this w;
      outbound := (outbound w ++ [requestOptions (this w) verb endpoint options])%list |}).
Proof.
  intros Hnet Hok. rewrite request_run. cbv zeta. rewrite Hnet, Hok. reflexivity.
Qed.

Lemma opt_chain_data body :
  JS.opt_chain body (fun r => JS.get r "data") = Normal (JS.field body "data").
Proof. destruct body; reflexivity. Qed.

(** X16: on an accepted response the five fetch methods return the [data]
    property of the body, not the body: [undefined] for a body without
    such a property (a user object, a list of guilds, [null]).  None of
    them throws in that case. *)
Theorem fetch_methods_return_nested_data net w status body :
  (forall config, net config = HttpResponse status body) ->
  validateStatus status = true ->
  fst (getMyInfo net w) = Normal (JS.field body "data") /\
  fst (getUserInfo net w) = Normal (JS.field body "data") /\
  fst (getMyConnections net w) = Normal (JS.field body "data") /\
  fst (getUserConnections net w) = Normal (JS.field body "data") /\
  fst (getGuilds net w) = Normal (JS.field body "data").
Proof.
  intros Hnet Hok.
  unfold getMyInfo, getUserInfo, getMyConnections, getUserConnections, getGuilds, bind, lift.
  rewrite !(request_accepted net w _ _ _ status body Hnet Hok), opt_chain_data.
  repeat split.
Qed.

Lemma fetch_methods_return_nested_data_witness :
  let body := JArr [JObj [("id", JStr "197038439483310086"); ("name", JStr "Testers")]] in
  let net := always (HttpResponse 200 body) in
  (forall config, net config = HttpResponse 200 body) /\
  validateStatus 200 = true /\
  fst (getMyInfo net sample_world) = Normal (JS.field body "data") /\
  fst (getUserInfo net sample_world) = Normal (JS.field body "data") /\
  fst (getMyConnections net sample_world) = Normal (JS.field body "data") /\
  fst (getUserConnections net sample_world) = Normal (JS.field body "data") /\
  fst (getGuilds net sample_world) = Normal (JS.field body "data").
Proof.
  intros body net. split; [intros config; reflexivity|]. split; [reflexivity|].
  apply (fetch_methods_return_nested_data net sample_world 200 body
           (fun config => eq_refl) eq_refl).
Defined.

(** X17: each fetch method makes exactly one outbound call, a GET to its
    own path under the API base, and leaves the instance as it was. *)
Theorem fetch_methods_endpoints net w :
  let sent path :=
    {| this := this w;
       outbound := (outbound w ++ [requestOptions (this w) "GET" path no_options])%list |} in
  snd (getMyInfo net w) = sent "/users/@me" /\
  snd (getUserInfo net w) = sent "/users/@me" /\
  snd (getMyConnections net w) = sent "/users/@me/connections" /\
  snd (getUserConnections net w) = sent "/users/@me/connections" /\
  snd (getGuilds net w) = sent "/users/@me/guilds" /\
  forall path,
    method (requestOptions (this w) "GET" path no_options) = "GET" /\
    url (requestOptions (this w) "GET" path no_options)
      = "https://discord.com/api/v10" +:+ path /\
    data (requestOptions (this w) "GET" path no_options) = JUndefined.
Proof.
  intros sent. subst sent.
  unfold getMyInfo, getUserInfo, getMyConnections, getUserConnections, getGuilds.
  rewrite !bind_request_world. repeat split.
Qed.

(** X18: [username()] reads [username] from what [getMyInfo] returned, the
    [data] property of the body.  For a body without that property, such
    as a user object, the read is one on [undefined] and throws the
    [TypeError] of the engine. *)
Theorem username_reads_nested_profile net w status body :
  (forall config, net config = HttpResponse status body) ->
  validateStatus status = true ->
  fst (username net w) = JS.get (JS.field body "data") "username" /\
  (JS.field body "data" = JUndefined ->
   fst (username net w) =
   Throw (ErrorInstance TypeError
            "Cannot read properties of undefined (reading 'username')" None)).
Proof.
  intros Hnet Hok.
  assert (fst (username net w) = JS.get (JS.field body "data") "username") as Hrun.
  { unfold username, getMyInfo, bind, lift.
    rewrite (request_accepted net w _ _ _ status body Hnet Hok), opt_chain_data.
    reflexivity. }
  split; [exact Hrun|]. intros Hdata. rewrite Hrun, Hdata. reflexivity.
Qed.

Lemma username_reads_nested_profile_witness :
  let body := JObj [("id", JStr "80351110224678912"); ("username", JStr "nelly")] in
  let net := always (HttpResponse 200 body) in
  (forall config, net config = HttpResponse 200 body) /\
  validateStatus 200 = true /\
  fst (username net sample_world) = JS.get (JS.field body "data") "username" /\
  (JS.field body "data" = JUndefined ->
   fst (username net sample_world) =
   Throw (ErrorInstance TypeError
            "Cannot read properties of undefined (reading 'username')" None)).
Proof.
  intros body net. split; [intros config; reflexivity|]. split; [reflexivity|].
  apply (username_reads_nested_profile net sample_world 200 body
           (fun config => eq_refl) eq_refl).
Defined.

(** X19: an error thrown by [request] passes through [getMyInfo] and
    [username] unchanged; neither wraps or replaces it. *)
Theorem username_passes_errors_through net w e :
  fst (request net "GET" "/users/@me" no_options w) = Throw e ->
  fst (getMyInfo net w) = Throw e /\ fst (username net w) = Throw e.
Proof.
  unfold username, getMyInfo, bind, lift.
  destruct (request net "GET" "/users/@me" no_options w) as [[response | e'] w'];
    simpl; [discriminate|].
  intros [= ->]. split; reflexivity.
Qed.

Lemma username_passes_errors_through_witness :
  let net := always (HttpResponse 401 (JObj [("message", JStr "401: Unauthorized")])) in
  let e := ErrorInstance InvalidAccessTokenError "Access token must be valid."
             (JS.JSON_stringify (JObj [("message", JStr "401: Unauthorized")])) in
  fst (request net "GET" "/users/@me" no_options sample_world) = Throw e /\
  fst (getMyInfo net sample_world) = Throw e /\ fst (username net sample_world) = Throw e.
Proof.
  intros net e. split; [reflexivity|].
  apply (username_passes_errors_through net sample_world e). reflexivity.
Defined.

(** X20: [getGuildMember] and [getMyInfoFromGuild] refuse a guild id that
    [getType] does not call a snowflake: they throw a [TypeError] that
    names the answer of [getType] and make no call. *)
Theorem getGuildMember_validates net getType w guild :
  getType guild <> "snowflake" ->
  getGuildMember net getType guild w = (Throw (not_a_snowflake (getType guild)), w) /\
  getMyInfoFromGuild net getType guild w = (Throw (not_a_snowflake (getType guild)), w).
Proof.
  intros Htype. unfold getGuildMember, getMyInfoFromGuild.
  destruct (String.eqb_spec (getType guild) "snowflake") as [Heq | _]; [contradiction|].
  split; reflexivity.
Qed.

Lemma getGuildMember_validates_witness :
  let guild := JStr "not-a-snowflake" in
  sample_getType guild <> "snowflake" /\
  getGuildMember (always NoResponse) sample_getType guild sample_world
  = (Throw (not_a_snowflake (sample_getType guild)), sample_world) /\
  getMyInfoFromGuild (always NoResponse) sample_getType guild sample_world
  = (Throw (not_a_snowflake (sample_getType guild)), sample_world).
Proof.
  intros guild.
  assert (sample_getType guild <> "snowflake") as Htype by discriminate.
  split; [exact Htype|].
  apply (getGuildMember_validates (always NoResponse) sample_getType sample_world guild Htype).
Defined.

(** X21: for a guild id that passes the check, [getGuildMember] and
    [getMyInfoFromGuild] make the same single call, a GET to
    /users/@me/guilds/<id>/member under the API base, with the bearer
    header. *)
Theorem getGuildMember_request net getType w guild :
  getType guild = "snowflake" ->
  exists config : AxiosRequestConfig,
    snd (getGuildMember net getType guild w) =
      {| this := this w; outbound := (outbound w ++ [config])%list |} /\
    snd (getMyInfoFromGuild net getType guild w) =
      {| this := this w; outbound := (outbound w ++ [config])%list |} /\
    method config = "GET" /\
    url config =
      "https://discord.com/api/v10/users/@me/guilds/" +:+ JS.to_string guild +:+ "/member" /\
    headers config !! "Authorization" =
      Some (match accessToken (this w) with
            | Some token => "Bearer " +:+ token
            | None => "Bearer null"
            end).
Proof.
  intros Htype. unfold getGuildMember, getMyInfoFromGuild. rewrite Htype.
  cbn [String.eqb Ascii.eqb Bool.eqb negb].
  rewrite !bind_request_world. eexists. split; [reflexivity|]. split; [reflexivity|].
  rewrite requestOptions_fields. cbn [method url headers]. split; [reflexivity|].
  split; [reflexivity|]. rewrite lookup_insert_eq.
  destruct (accessToken (this w)); reflexivity.
Qed.

Lemma getGuildMember_request_witness :
  let guild := JStr "197038439483310086" in
  sample_getType guild = "snowflake" /\
  exists config : AxiosRequestConfig,
    snd (getGuildMember (always NoResponse) sample_getType guild sample_world) =
      {| this := this sample_world;
         outbound := (outbound sample_world ++ [config])%list |} /\
    snd (getMyInfoFromGuild (always NoResponse) sample_getType guild sample_world) =
      {| this := this sample_world;
         outbound := (outbound sample_world ++ [config])%list |} /\
    method config = "GET" /\
    url config =
      "https://discord.com/api/v10/users/@me/guilds/" +:+ JS.to_string guild +:+ "/member" /\
    headers config !! "Authorization" =
      Some (match accessToken (this sample_world) with
            | Some token => "Bearer " +:+ token
            | None => "Bearer null"
            end).
Proof.
  intros guild. split; [reflexivity|].
  apply (getGuildMember_request (always NoResponse) sample_getType sample_world guild).
  reflexivity.
Defined.

(** ** Joining a guild *)

Lemma joinGuild_checked net getType w options :
  getType (guildId options) = "snowflake" ->
  getType (roles options) = "array" ->
  getType (userId options) = "snowflake" ->
  joinGuild net getType options w =
  bind (axios_put net
          (baseURL +:+ "/guilds/" +:+ JS.to_string (guildId options) +:+ "/members/"
           +:+ JS.to_string (userId options))
          (JObj [("roles", if JS.truthy (roles options) then roles options else JArr []);
                 ("access_token", nullable_value (accessToken (this w)))])
          (<["Content-Type" := "application/json"]>
             {[ "Authorization" := "Bot " +:+ nullable_to_string (clientToken (this w)) ]}))
       (fun response => lift (JS.get response "data")) w.
Proof.
  intros Hguild Hroles Huser. unfold joinGuild. rewrite Hguild, Hroles, Huser.
  reflexivity.
Qed.

(** X22: a [joinGuild] whose three inputs pass their checks makes exactly
    one outbound call and leaves the instance as it was.  The call is a PUT
    to /guilds/<guild>/members/<user> under the API base; its headers are
    [Authorization], holding [Bot] followed by the bot token of the instance
    (by [null] when that is null) and never a bearer value, and the JSON
    content type; its body holds the roles and, as [access_token], the
    access token of the session ([null] when there is none). *)
Theorem joinGuild_request net getType w options items :
  getType (guildId options) = "snowflake" ->
  getType (roles options) = "array" ->
  getType (userId options) = "snowflake" ->
  roles options = JArr items ->
  exists config : AxiosRequestConfig,
    snd (joinGuild net getType options w) =
      {| this := this w; outbound := (outbound w ++ [config])%list |} /\
    method config = "PUT" /\
    url config =
      "https://discord.com/api/v10/guilds/" +:+ JS.to_string (guildId options)
      +:+ "/members/" +:+ JS.to_string (userId options) /\
    headers config !! "Authorization" =
      Some (match clientToken (this w) with
            | Some bot => "Bot " +:+ bot
            | None => "Bot null"
            end) /\
    (forall token : string,
       headers config !! "Authorization" <> Some ("Bearer " +:+ token)) /\
    headers config !! "Content-Type" = Some "application/json" /\
    data config = JObj [("roles", JArr items);
                        ("access_token",
                         match accessToken (this w) with
                         | Some token => JStr token
                         | None => JNull
                         end)].
Proof.
  intros Hguild Hroles Huser Hitems.
  rewrite (joinGuild_checked net getType w options Hguild Hroles Huser).
  rewrite Hitems. cbn [JS.truthy].
  unfold bind, axios_put, axios_request, lift. cbv zeta.
  match goal with
  | |- context [net ?c] => set (sent := c)
  end.
  exists sent. split.
  - destruct (net sent) as [|status body]; [reflexivity|].
    destruct (validateStatus status); reflexivity.
  - subst sent. cbn [method url headers data].
    split; [reflexivity|]. split; [reflexivity|].
    assert ((<["Content-Type" := "application/json"]>
               ({[ "Authorization" := "Bot " +:+ nullable_to_string (clientToken (this w)) ]}
                : gmap string string)) !! "Authorization"
            = Some ("Bot " +:+ nullable_to_string (clientToken (this w)))) as Hbot.
    { rewrite lookup_insert_ne by discriminate. apply lookup_singleton_eq. }
    rewrite Hbot. split; [destruct (clientToken (this w)); reflexivity|].
    split; [intros token; intros [= H]|].
    split; [apply lookup_insert_eq|].
    destruct (accessToken (this w)); reflexivity.
Qed.

Lemma joinGuild_request_witness :
  let net := always (HttpResponse 201 (JObj [])) in
  sample_getType (guildId sample_join) = "snowflake" /\
  sample_getType (roles sample_join) = "array" /\
  sample_getType (userId sample_join) = "snowflake" /\
  roles sample_join = JArr [JStr "197038439483310099"] /\
  exists config : AxiosRequestConfig,
    snd (joinGuild net sample_getType sample_join sample_world) =
      {| this := this sample_world;
         outbound := (outbound sample_world ++ [config])%list |} /\
    method config = "PUT" /\
    url config =
      "https://discord.com/api/v10/guilds/" +:+ JS.to_string (guildId sample_join)
      +:+ "/members/" +:+ JS.to_string (userId sample_join) /\
    headers config !! "Authorization" =
      Some (match clientToken (this sample_world) with
            | Some bot => "Bot " +:+ bot
            | None => "Bot null"
            end) /\
    (forall token : string,
       headers config !! "Authorization" <> Some ("Bearer " +:+ token)) /\
    headers config !! "Content-Type" = Some "application/json" /\
    data config = JObj [("roles", JArr [JStr "197038439483310099"]);
                        ("access_token",
                         match accessToken (this sample_world) with
                         | Some token => JStr token
                         | None => JNull
                         end)].
Proof.
  intros net. do 4 (split; [reflexivity|]).
  apply (joinGuild_request net sample_getType sample_world sample_join
           [JStr "197038439483310099"] eq_refl eq_refl eq_refl eq_refl).
Defined.

(** X23: when one of the three checks of [joinGuild] fails, it throws a
    [TypeError] and makes no call. *)
Theorem joinGuild_validates net getType w options :
  getType (guildId options) <> "snowflake" \/
  getType (roles options) <> "array" \/
  getType (userId options) <> "snowflake" ->
  exists message,
    joinGuild net getType options w = (Throw (ErrorInstance TypeError message None), w).
Proof.
  intros Hbad. unfold joinGuild.
  destruct (String.eqb_spec (getType (guildId options)) "snowflake") as [Hguild | _];
    [|eexists; reflexivity].
  destruct (String.eqb_spec (getType (roles options)) "array") as [Hroles | _];
    [|eexists; reflexivity].
  destruct (String.eqb_spec (getType (userId options)) "snowflake") as [Huser | _];
    [|eexists; reflexivity].
  exfalso. destruct Hbad as [H | [H | H]]; contradiction.
Qed.

Lemma joinGuild_validates_witness :
  let options := {| guildId := JStr "197038439483310086";
                    userId := JStr "80351110224678912";
                    roles := JStr "197038439483310099" |} in
  (sample_getType (guildId options) <> "snowflake" \/
   sample_getType (roles options) <> "array" \/
   sample_getType (userId options) <> "snowflake") /\
  exists message,
    joinGuild (always NoResponse) sample_getType options sample_world
    = (Throw (ErrorInstance TypeError message None), sample_world).
Proof.
  intros options.
  assert (sample_getType (guildId options) <> "snowflake" \/
          sample_getType (roles options) <> "array" \/
          sample_getType (userId options) <> "snowflake") as Hbad.
  { right; left. discriminate. }
  split; [exact Hbad|].
  apply (joinGuild_validates (always NoResponse) sample_getType sample_world options Hbad).
Defined.

(** X24: [joinGuild] returns the body of an accepted response, and throws
    the value the transport rejected with for any other; the status table
    of [request] plays no part, so a 401 here is no
    [InvalidAccessTokenError]. *)
Theorem joinGuild_outcome net getType w options status body :
  getType (guildId options) = "snowflake" ->
  getType (roles options) = "array" ->
  getType (userId options) = "snowflake" ->
  (forall config, net config = HttpResponse status body) ->
  (validateStatus status = true ->
   fst (joinGuild net getType options w) = Normal body) /\
  (validateStatus status = false ->
   exists error,
     fst (joinGuild net getType options w) = Throw (Rejection error) /\
     JS.field (JS.field error "response") "status" = JNum status /\
     JS.field (JS.field error "response") "data" = body).
Proof.
  intros Hguild Hroles Huser Hnet.
  rewrite (joinGuild_checked net getType w options Hguild Hroles Huser).
  unfold bind, axios_put, axios_request, lift. cbv zeta. rewrite Hnet.
  split; intros ->; [reflexivity|].
  eexists. split; [reflexivity|]. split; reflexivity.
Qed.

Lemma joinGuild_outcome_witness :
  let body := JObj [("message", JStr "401: Unauthorized"); ("code", JNum 0)] in
  let net := always (HttpResponse 401 body) in
  sample_getType (guildId sample_join) = "snowflake" /\
  sample_getType (roles sample_join) = "array" /\
  sample_getType (userId sample_join) = "snowflake" /\
  (forall config, net config = HttpResponse 401 body) /\
  (validateStatus 401 = true ->
   fst (joinGuild net sample_getType sample_join sample_world) = Normal body) /\
  (validateStatus 401 = false ->
   exists error,
     fst (joinGuild net sample_getType sample_join sample_world) = Throw (Rejection error) /\
     JS.field (JS.field error "response") "status" = JNum 401 /\
     JS.field (JS.field error "response") "data" = body).
Proof.
  intros body net. do 3 (split; [reflexivity|]). split; [intros config; reflexivity|].
  apply (joinGuild_outcome net sample_getType sample_world sample_join 401 body
           eq_refl eq_refl eq_refl (fun config => eq_refl)).
Defined.

(** ** The credentials *)

(** X25: no method changes the client id, the client secret, the redirect
    URI or the bot token; and apart from [setAccessToken], [setRevokeToken]
    and [revokeToken], no method changes the instance at all. *)
Theorem credentials_never_change net getType w :
  (forall token, credentials (this (snd (setAccessToken token w))) = credentials (this w)) /\
  (forall token, credentials (this (snd (setRevokeToken token w))) = credentials (this w)) /\
  credentials (this (snd (revokeToken net w))) = credentials (this w) /\
  (forall code, this (snd (exchangeCodeForTokens net getType code w)) = this w) /\
  this (snd (getApplication net w)) = this w /\
  this (snd (username net w)) = this w /\
  (forall guild, this (snd (getGuildMember net getType guild w)) = this w) /\
  (forall options, this (snd (joinGuild net getType options w)) = this w).
Proof.
  split; [reflexivity|]. split; [reflexivity|]. split.
  { unfold revokeToken, bind, read_this.
    destruct (negb (nullable_truthy (accessToken (this w)))
              || negb (nullable_truthy (refreshToken (this w)))); [reflexivity|].
    unfold axios_post, axios_request, write_this. cbv zeta. cbn [this outbound].
    match goal with
    | |- context [net ?c] => destruct (net c) as [|status body]
    end; [reflexivity|].
    destruct (validateStatus status); reflexivity. }
  split.
  { intros code. unfold exchangeCodeForTokens.
    destruct (negb (String.eqb (getType code) "string")); [reflexivity|].
    unfold bind at 1. unfold read_this. unfold bind, lift, ret.
    match goal with
    | |- context [request net ?v ?p ?o w] =>
        pose proof (request_outbound net v p o w) as Hout;
        destruct (request net v p o w) as [[response | e] w']
    end; simpl in Hout; subst w'; [|reflexivity].
    destruct (JS.opt_chain response _); [|reflexivity].
    destruct (JS.opt_chain response _); reflexivity. }
  split.
  { unfold getApplication. unfold bind at 1. unfold read_this.
    rewrite bind_request_world. reflexivity. }
  split.
  { unfold username, getMyInfo, bind, lift.
    match goal with
    | |- context [request net ?v ?p ?o w] =>
        pose proof (request_outbound net v p o w) as Hout;
        destruct (request net v p o w) as [[response | e] w']
    end; simpl in Hout; subst w'; [|reflexivity].
    destruct (JS.opt_chain response _); reflexivity. }
  split.
  { intros guild. unfold getGuildMember.
    destruct (negb (String.eqb (getType guild) "snowflake")); [reflexivity|].
    rewrite bind_request_world. reflexivity. }
  intros options. unfold joinGuild.
  destruct (negb (String.eqb (getType (guildId options)) "snowflake")); [reflexivity|].
  destruct (negb (String.eqb (getType (roles options)) "array")); [reflexivity|].
  destruct (negb (String.eqb (getType (userId options)) "snowflake")); [reflexivity|].
  unfold bind, read_this, axios_put, axios_request, lift. cbv zeta.
  match goal with
  | |- context [net ?c] => destruct (net c) as [|status body]
  end; [reflexivity|].
  destruct (validateStatus status); reflexivity.
Qed.

(** ** The earlier revision of the token methods *)

Lemma legacy_request_accepts_200 net w verb endpoint options body :
  (forall config, net config = HttpResponse 200 body) ->
  fst (Legacy.request net verb endpoint options w)
  = Normal (JObj [("data", body); ("status", JNum 200)]).
Proof.
  intros Hnet. unfold Legacy.request, bind, read_this, try_catch, axios_request, lift.
  cbv zeta. rewrite Hnet. reflexivity.
Qed.

(** X26: in the earlier revision, where [request] returns the whole
    response, an exchange answered with status 200 and an object as body
    returns the [access_token] and the [refresh_token] of that body,
    unchanged. *)
Theorem legacy_exchangeCodeForTokens_maps_fields net getType w code fields :
  getType code = "snowflake" ->
  (forall config, net config = HttpResponse 200 (JObj fields)) ->
  fst (LegacyCallSites.exchangeCodeForTokens net getType code w) =
  Normal {| pair_accessToken := JS.field (JObj fields) "access_token";
            pair_refreshToken := JS.field (JObj fields) "refresh_token" |}.
Proof.
  intros Htype Hnet. unfold LegacyCallSites.exchangeCodeForTokens. rewrite Htype.
  cbn [String.eqb Ascii.eqb Bool.eqb negb].
  unfold bind at 1. unfold read_this. unfold try_catch. unfold bind at 1.
  match goal with
  | |- context [Legacy.request net ?v ?p ?o ?w0] =>
      pose proof (legacy_request_accepts_200 net w0 v p o (JObj fields) Hnet) as Hresp;
      destruct (Legacy.request net v p o w0) as [result w']
  end.
  simpl in Hresp. subst result. reflexivity.
Qed.

Lemma legacy_exchangeCodeForTokens_maps_fields_witness :
  let fields := [("access_token", JStr "6qrZcUqja7812RVdnEKjpzOL4CvHBFG");
                 ("token_type", JStr "Bearer");
                 ("refresh_token", JStr "D43f5y0ahjqew82jZ4NViEr2YafMKhue")] in
  let net := always (HttpResponse 200 (JObj fields)) in
  let code := JStr "197038439483310086" in
  sample_getType code = "snowflake" /\
  (forall config, net config = HttpResponse 200 (JObj fields)) /\
  fst (LegacyCallSites.exchangeCodeForTokens net sample_getType code sample_world) =
  Normal {| pair_accessToken := JS.field (JObj fields) "access_token";
            pair_refreshToken := JS.field (JObj fields) "refresh_token" |}.
Proof.
  intros fields net code. split; [reflexivity|]. split; [intros config; reflexivity|].
  apply (legacy_exchangeCodeForTokens_maps_fields net sample_getType sample_world code fields);
    [reflexivity | intros config; reflexivity].
Defined.

Lemma legacy_request_rejects_others net w verb endpoint options reply :
  (forall config, net config = reply) ->
  (forall body, reply <> HttpResponse 200 body) ->
  exists e, fst (Legacy.request net verb endpoint options w) = Throw e.
Proof.
  intros Hnet Hnot. unfold Legacy.request. unfold bind at 1. unfold read_this, try_catch.
  match goal with
  | |- context [bind (axios_request net ?c) ?k w] =>
      assert (exists e w', bind (axios_request net c) k w = (Throw e, w')) as (e & w' & ->)
  end.
  { unfold bind, axios_request, lift. cbv zeta. rewrite Hnet.
    destruct reply as [|status body]; [eexists _, _; reflexivity|].
    destruct (validateStatus status) eqn:Hok; [|eexists _, _; reflexivity].
    cbn [JS.get JS.assoc String.eqb Ascii.eqb Bool.eqb default from_option id].
    unfold throw, ret.
    repeat case_match;
      first [ eexists _, _; reflexivity
            | exfalso; apply (Hnot body); reflexivity
            | vm_compute in Hok; discriminate Hok ]. }
  unfold bind, lift, throw.
  destruct (JS.get (caught e) "message"); eexists; reflexivity.
Qed.

(** X27: in the earlier revision every failed exchange, whatever the
    reason (no response, a rejected status, or an accepted status other
    than 200), surfaces as the one error "Failed to exchange code for
    tokens". *)
Theorem legacy_exchangeCodeForTokens_failure net getType w code reply :
  getType code = "snowflake" ->
  (forall config, net config = reply) ->
  (forall body, reply <> HttpResponse 200 body) ->
  fst (LegacyCallSites.exchangeCodeForTokens net getType code w) =
  Throw (ErrorInstance Error "Failed to exchange code for tokens" None).
Proof.
  intros Htype Hnet Hnot. unfold LegacyCallSites.exchangeCodeForTokens. rewrite Htype.
  cbn [String.eqb Ascii.eqb Bool.eqb negb].
  unfold bind at 1. unfold read_this. unfold try_catch. unfold bind at 1.
  match goal with
  | |- context [Legacy.request net ?v ?p ?o ?w0] =>
      destruct (legacy_request_rejects_others net w0 v p o reply Hnet Hnot) as [e He];
      destruct (Legacy.request net v p o w0) as [result w']
  end.
  simpl in He. subst result. reflexivity.
Qed.

Lemma legacy_exchangeCodeForTokens_failure_witness :
  let reply := HttpResponse 201 (JObj [("access_token", JStr "A")]) in
  let code := JStr "197038439483310086" in
  sample_getType code = "snowflake" /\
  (forall config, always reply config = reply) /\
  (forall body, reply <> HttpResponse 200 body) /\
  fst (LegacyCallSites.exchangeCodeForTokens (always reply) sample_getType code sample_world) =
  Throw (ErrorInstance Error "Failed to exchange code for tokens" None).
Proof.
  intros reply code.
  assert (forall body, reply <> HttpResponse 200 body) as Hnot by (intros body; discriminate).
  split; [reflexivity|]. split; [intros config; reflexivity|]. split; [exact Hnot|].
  apply (legacy_exchangeCodeForTokens_failure (always reply) sample_getType sample_world
           code reply eq_refl (fun config => eq_refl) Hnot).
Defined.

(** X28: the earlier [revokeToken] sends the access token, not the refresh
    token, as [token]; when the request fails it throws the one error
    "Failed to revoke token" and keeps both tokens. *)
Theorem legacy_revokeToken_behaviour net w access refresh :
  accessToken (this w) = Some access -> access <> "" ->
  refreshToken (this w) = Some refresh -> refresh <> "" ->
  exists (config : AxiosRequestConfig) (form : string),
    outbound (snd (LegacyCallSites.revokeToken net w)) = (outbound w ++ [config])%list /\
    data config = JStr form /\
    QueryString.parse form =
      [ ("client_id", clientId (this w));
        ("client_secret", clientSecret (this w));
        ("token", access) ] /\
    ((net config = NoResponse \/
      exists status body, net config = HttpResponse status body /\ validateStatus status = false) ->
     fst (LegacyCallSites.revokeToken net w) =
       Throw (ErrorInstance Error "Failed to revoke token" None) /\
     this (snd (LegacyCallSites.revokeToken net w)) = this w).
Proof.
  intros Haccess Haccess' Hrefresh Hrefresh'.
  unfold LegacyCallSites.revokeToken, bind, read_this, try_catch.
  rewrite Haccess, Hrefresh.
  cbn [nullable_truthy JS.truthy nullable_to_string].
  apply String.eqb_neq in Haccess', Hrefresh'. rewrite Haccess', Hrefresh'.
  cbn [negb orb].
  unfold axios_post, axios_request, write_this, throw. cbv zeta. cbn [this outbound].
  match goal with
  | |- context [net ?c] => set (sent := c)
  end.
  exists sent. eexists. split; [|split; [reflexivity|split]].
  - destruct (net sent) as [|status body]; [reflexivity|].
    destruct (validateStatus status); reflexivity.
  - unfold URLSearchParams.append. cbn [app]. apply QueryFacts.parse_toString.
  - intros [-> | (status & body & -> & ->)]; split; reflexivity.
Qed.

Lemma legacy_revokeToken_behaviour_witness :
  let net := always NoResponse in
  accessToken (this sample_world) = Some "user-token" /\ "user-token" <> "" /\
  refreshToken (this sample_world) = Some "refresh-token" /\ "refresh-token" <> "" /\
  exists (config : AxiosRequestConfig) (form : string),
    outbound (snd (LegacyCallSites.revokeToken net sample_world))
    = (outbound sample_world ++ [config])%list /\
    data config = JStr form /\
    QueryString.parse form =
      [ ("client_id", clientId (this sample_world));
        ("client_secret", clientSecret (this sample_world));
        ("token", "user-token") ] /\
    ((net config = NoResponse \/
      exists status body, net config = HttpResponse status body /\ validateStatus status = false) ->
     fst (LegacyCallSites.revokeToken net sample_world) =
       Throw (ErrorInstance Error "Failed to revoke token" None) /\
     this (snd (LegacyCallSites.revokeToken net sample_world)) = this sample_world).
Proof.
  intros net.
  assert ("user-token" <> "") as Ha by discriminate.
  assert ("refresh-token" <> "") as Hr by discriminate.
  split; [reflexivity|]. split; [exact Ha|]. split; [reflexivity|]. split; [exact Hr|].
  apply (legacy_revokeToken_behaviour net sample_world "user-token" "refresh-token"
           eq_refl Ha eq_refl Hr).
Defined.
